(** * User schemas of the ERP backend (src/users.py)

    A shallow embedding of the module's identifier helper [PyObjectId],
    its field validators and its five schema classes, together with the
    properties of the written specification that were checked against
    them.

    Conventions of the embedding.
    - A Python [str] is a Rocq [string]; a character is a code point of
      the range U+0000..U+00FF, classified as Python classifies it
      ([str.isspace], [str.isdigit], [str.isupper], [str.lower]).
    - A Python exception that Pydantic turns into a validation error and
      one that it lets escape are two different outcomes.
    - What Pydantic and bson do is written out where the module relies
      on it; the rules of the external email, boolean and datetime
      parsers are parameters of the development.
    - The module is run by Pydantic 2 ([field_validator], [model_config]):
      a function that a type yields from [__get_validators__] is called
      with the value and the validation info. *)

From Stdlib Require Import Ascii String Strings.Byte NArith ZArith List Lia Bool.
From stdpp Require Import base gmap strings list.
Import ListNotations.

Local Open Scope string_scope.
Local Open Scope list_scope.

(* ====================================================================== *)
(** ** Python strings *)
(* ====================================================================== *)

Module PyStr.

Definition code (c : ascii) : N := N_of_ascii c.

Definition between (lo hi : N) (c : ascii) : bool :=
  (lo <=? code c)%N && (code c <=? hi)%N.

(** [str.isspace] on one character: TAB..CR, FS..US, SPACE, NEL, NBSP. *)
Definition isspace (c : ascii) : bool :=
  between 9 13 c || between 28 32 c
  || (code c =? 133)%N || (code c =? 160)%N.

(** [str.isdigit] on one character: 0-9 and the superscripts 1, 2, 3. *)
Definition isdigit (c : ascii) : bool :=
  between 48 57 c || between 178 179 c || (code c =? 185)%N.

(** The ASCII decimal digits. *)
Definition is_ascii_digit (c : ascii) : bool := between 48 57 c.

(** [str.isdecimal] on one character: in this range, 0-9 only. *)
Definition isdecimal (c : ascii) : bool := is_ascii_digit c.

(** [str.isupper] on one character: A-Z and the Latin-1 capitals. *)
Definition isupper (c : ascii) : bool :=
  between 65 90 c || between 192 214 c || between 216 222 c.

Definition is_ascii_upper (c : ascii) : bool := between 65 90 c.

Definition is_ascii (c : ascii) : bool := (code c <? 128)%N.

(** [str.lower] on one character. *)
Definition lower_char (c : ascii) : ascii :=
  if isupper c then ascii_of_N (code c + 32) else c.

Definition chars (s : string) : list ascii := list_ascii_of_string s.
Definition of_chars (l : list ascii) : string := string_of_list_ascii l.

Fixpoint lstrip_chars (l : list ascii) : list ascii :=
  match l with
  | c :: l' => if isspace c then lstrip_chars l' else l
  | [] => []
  end.

Definition rstrip_chars (l : list ascii) : list ascii :=
  rev (lstrip_chars (rev l)).

Definition strip_chars (l : list ascii) : list ascii :=
  rstrip_chars (lstrip_chars l).

(** [s.strip()] *)
Definition strip (s : string) : string := of_chars (strip_chars (chars s)).

(** [s.lower()] *)
Definition lower (s : string) : string := of_chars (map lower_char (chars s)).

(** [len(s)] *)
Definition len (s : string) : nat := String.length s.

(** [any(p(c) for c in s)] *)
Definition any (p : ascii -> bool) (s : string) : bool := existsb p (chars s).

(** [all(p(c) for c in s)] *)
Definition all (p : ascii -> bool) (s : string) : bool := forallb p (chars s).






End PyStr.

(* ====================================================================== *)
(** ** Python strings beyond U+00FF *)
(* ====================================================================== *)

Module Unicode.

(** Python's tables for the code points above U+00FF: the Unicode
    database of the interpreter, outside the repository. *)
Class Database : Type := {
  (** [str.isspace] of the character *)
  db_isspace : N -> bool;
  (** [str.isupper] of the character *)
  db_isupper : N -> bool;
  (** the lower case of the character where it stands, between the code
      points before it and those after it (which decide for U+03A3) *)
  db_lower : list N -> N -> list N -> list N
}.

(** A [str] as the list of its code points. *)
Abbreviation str := (list N).

Definition latin1 (c : N) : bool := (c <? 256)%N.

Definition isspace `{Database} (c : N) : bool :=
  if latin1 c then PyStr.isspace (ascii_of_N c) else db_isspace c.

Definition isupper `{Database} (c : N) : bool :=
  if latin1 c then PyStr.isupper (ascii_of_N c) else db_isupper c.

Definition lower_at `{Database} (before : list N) (c : N) (after : list N) : list N :=
  if latin1 c then [PyStr.code (PyStr.lower_char (ascii_of_N c))]
  else db_lower before c after.

Fixpoint lower_from `{Database} (before : list N) (s : str) : str :=
  match s with
  | [] => []
  | c :: after => lower_at before c after ++ lower_from (before ++ [c]) after
  end.

(** [s.lower()] *)
Definition lower `{Database} (s : str) : str := lower_from [] s.

Fixpoint lstrip `{Database} (s : str) : str :=
  match s with
  | c :: s' => if isspace c then lstrip s' else s
  | [] => []
  end.

Definition rstrip `{Database} (s : str) : str := rev (lstrip (rev s)).

(** [s.strip()] *)
Definition strip `{Database} (s : str) : str := rstrip (lstrip s).

(** [UserBase.normalise_email(v)] on a [str]: [v.strip().lower()]. *)
Definition normalise_email `{Database} (v : str) : str := lower (strip v).

(** The code points of a string of the range U+0000..U+00FF. *)
Definition of_string (s : string) : str := map PyStr.code (PyStr.chars s).

End Unicode.

(* ====================================================================== *)
(** ** bson.ObjectId *)
(* ====================================================================== *)

Module Bson.

(** The storage-native identifier: the bytes of a [bson.ObjectId]. *)
Record ObjectId : Type := mkObjectId { binary : list byte }.

(** Every [ObjectId] the driver builds holds twelve bytes. *)
Definition wf (o : ObjectId) : Prop := length (binary o) = 12%nat.

Definition hexdigits : list ascii := PyStr.chars "0123456789abcdef".

Definition hexdigit (n : N) : ascii :=
  nth (N.to_nat n) hexdigits "0"%char.

Definition hex_of_byte (b : byte) : list ascii :=
  [hexdigit (Byte.to_N b / 16); hexdigit (Byte.to_N b mod 16)].

(** [str(oid)]: the lower-case hexadecimal rendering of the bytes. *)
Definition str (o : ObjectId) : string :=
  PyStr.of_chars (concat (map hex_of_byte (binary o))).

Definition is_hex (c : ascii) : bool :=
  PyStr.between 48 57 c || PyStr.between 97 102 c || PyStr.between 65 70 c.

(** Modelled from the spec: [bson.ObjectId.is_valid] is not part of the
    repository.  The specification describes the wire form as a
    fixed-length hexadecimal string and a candidate as invalid when it
    has the wrong length or a character that is not a hexadecimal
    digit; the fixed length of an ObjectId rendering is 24. *)
Definition is_valid (s : string) : bool :=
  Nat.eqb (PyStr.len s) 24 && PyStr.all is_hex s.

End Bson.

(* ====================================================================== *)
(** ** Python values, exceptions and results *)
(* ====================================================================== *)

(** [class UserRole(str, Enum)] *)
Inductive UserRole : Type := ADMIN | PROJECT_LEAD | MEMBER | INTERN | VIEWER.

Definition role_value (r : UserRole) : string :=
  match r with
  | ADMIN => "admin"
  | PROJECT_LEAD => "project_lead"
  | MEMBER => "member"
  | INTERN => "intern"
  | VIEWER => "viewer"
  end.

Definition all_roles : list UserRole :=
  [ADMIN; PROJECT_LEAD; MEMBER; INTERN; VIEWER].

(** Lookup of an enumeration member by its value. *)
Definition role_of_value (s : string) : option UserRole :=
  find (fun r => String.eqb (role_value r) s) all_roles.

(** A [datetime], as microseconds since the epoch. *)
Definition datetime : Type := Z.

(** The Python objects that occur as values of the fields: [None],
    [bool], [str], members of [UserRole], [bson.ObjectId], [datetime]. *)
Inductive PyValue : Type :=
| VNone
| VBool (b : bool)
| VStr (s : string)
| VRole (r : UserRole)
| VObjectId (o : Bson.ObjectId)
| VDatetime (t : datetime).

(** [isinstance(v, str)], with the characters of [v].  A member of
    [UserRole] is a [str]: the enumeration mixes [str] in. *)
Definition as_str (v : PyValue) : option string :=
  match v with
  | VStr s => Some s
  | VRole r => Some (role_value r)
  | _ => None
  end.

(** The text of an exception. *)
Inductive Message : Type :=
| Text (s : string)
| Invalid_ObjectId (value : PyValue)   (* f"Invalid ObjectId: {value!r}" *)
| Not_a_valid_email.                   (* raised by [EmailStr] *)

Inductive Exception : Type :=
| ValueError (m : Message)
| AttributeError (attribute : string)  (* object has no such attribute *)
| TypeError (function : string) (takes given : nat).
  (* "function() takes [takes] positional arguments but [given] were given" *)

Inductive res (A : Type) : Type :=
| Ok (a : A)
| Raise (e : Exception).
Arguments Ok {A} a.
Arguments Raise {A} e.

(** A method that takes, besides [cls], the value alone, as Python sees
    it: its qualified name and what it does with the value. *)
Record ValueFunction : Type := mkValueFunction {
  qualname : string;
  body : PyValue -> res PyValue
}.

(** [f(value, info)]: one positional argument more than the method
    takes.  Python counts [cls] among the arguments. *)
Definition call_with_info (f : ValueFunction) (value : PyValue) : res PyValue :=
  Raise (TypeError (qualname f) 2 3).

(* ====================================================================== *)
(** ** PyObjectId *)
(* ====================================================================== *)

Module PyObjectId.

(** [PyObjectId.validate(value)] *)
Definition validate (value : PyValue) : res PyValue :=
  match value with
  | VObjectId o => Ok (VStr (Bson.str o))
  | _ =>
      match as_str value with
      | Some s =>
          if Bson.is_valid s then Ok value
          else Raise (ValueError (Invalid_ObjectId value))
      | None => Raise (ValueError (Invalid_ObjectId value))
      end
  end.

(** [PyObjectId.validate] as a method object. *)
Definition validate_method : ValueFunction :=
  mkValueFunction "PyObjectId.validate" validate.

(** [PyObjectId.__get_validators__()]: yields [cls.validate]. *)
Definition get_validators : list ValueFunction := [validate_method].

(** The two directions of the identifier codec as the specification
    names them.  Both are [validate]: the module has one coercion,
    from either representation to the string form. *)
Definition toWire (x : Bson.ObjectId) : res PyValue := validate (VObjectId x).
Definition fromWire (candidate : string) : res PyValue := validate (VStr candidate).

(** The round trip of the specification, [fromWire(toWire(x))]. *)
Definition round_trip (x : Bson.ObjectId) : res PyValue :=
  match toWire x with
  | Ok (VStr wire) => fromWire wire
  | Ok other => validate other
  | Raise e => Raise e
  end.

End PyObjectId.

(* ====================================================================== *)
(** ** Pydantic: errors, schemas and model validation *)
(* ====================================================================== *)

(** Rules of the parsers that Pydantic calls and the repository does not
    contain.  Each returns the parsed value or fails. *)
Class External : Type := {
  (** [EmailStr]: the accepted, normalised address. *)
  validate_email : string -> option string;
  (** the lax conversion of a [str] to a [bool] *)
  str_as_bool : string -> option bool;
  (** the lax conversion of a [str] to a [datetime] *)
  str_as_datetime : string -> option datetime
}.

Module Pydantic.

(** The [type] of one line of a [ValidationError]. *)
Inductive ErrType : Type :=
| missing
| extra_forbidden
| string_type
| string_too_short
| string_too_long
| enum
| bool_type
| bool_parsing
| datetime_type
| datetime_parsing
| value_error (m : Message).

(** One line of a [ValidationError]: the field and what failed. *)
Record ErrorDetail : Type := mkError { loc : string; type : ErrType }.

(** The error kinds of the specification. *)
Inductive Kind : Type :=
| InvalidLength | InvalidFormat | WeakPassword | InvalidIdentifier
| MissingField | ForbiddenField | InvalidType.

Definition kind (e : ErrorDetail) : Kind :=
  match type e with
  | missing => MissingField
  | extra_forbidden => ForbiddenField
  | string_too_short | string_too_long => InvalidLength
  | value_error Not_a_valid_email => InvalidFormat
  | value_error (Invalid_ObjectId _) => InvalidIdentifier
  | value_error (Text _) => WeakPassword
  | string_type | enum | bool_type | bool_parsing
  | datetime_type | datetime_parsing => InvalidType
  end.

(** What validating one field gives: a value, a line of the
    validation error, or an exception that Pydantic does not catch. *)
Inductive FieldResult : Type :=
| FOk (v : PyValue)
| FError (t : ErrType)
| FRaise (e : Exception).

Definition Schema : Type := PyValue -> FieldResult.

(** A validator function's result inside a schema: [ValueError] becomes
    a line of type [value_error], any other exception escapes. *)
Definition of_res (r : res PyValue) : FieldResult :=
  match r with
  | Ok v => FOk v
  | Raise (ValueError m) => FError (value_error m)
  | Raise e => FRaise e
  end.

(** [str], with [min_length] and [max_length] counted in characters. *)
Definition str_schema (min_length max_length : option nat) : Schema :=
  fun v =>
    match as_str v with
    | None => FError string_type
    | Some s =>
        if match min_length with Some n => Nat.ltb (PyStr.len s) n | None => false end
        then FError string_too_short
        else if match max_length with Some n => Nat.ltb n (PyStr.len s) | None => false end
        then FError string_too_long
        else FOk (VStr s)
    end.

(** [EmailStr] *)
Definition email_schema `{External} : Schema :=
  fun v =>
    match as_str v with
    | None => FError string_type
    | Some s =>
        match validate_email s with
        | Some s' => FOk (VStr s')
        | None => FError (value_error Not_a_valid_email)
        end
    end.

(** [UserRole]: a member, or the value of one. *)
Definition enum_schema : Schema :=
  fun v =>
    match v with
    | VRole r => FOk (VRole r)
    | _ =>
        match as_str v with
        | Some s =>
            match role_of_value s with
            | Some r => FOk (VRole r)
            | None => FError enum
            end
        | None => FError enum
        end
    end.

(** [bool] *)
Definition bool_schema `{External} : Schema :=
  fun v =>
    match v with
    | VBool b => FOk (VBool b)
    | _ =>
        match as_str v with
        | Some s =>
            match str_as_bool s with
            | Some b => FOk (VBool b)
            | None => FError bool_parsing
            end
        | None => FError bool_type
        end
    end.

(** [datetime] *)
Definition datetime_schema `{External} : Schema :=
  fun v =>
    match v with
    | VDatetime t => FOk (VDatetime t)
    | _ =>
        match as_str v with
        | Some s =>
            match str_as_datetime s with
            | Some t => FOk (VDatetime t)
            | None => FError datetime_parsing
            end
        | None => FError datetime_type
        end
    end.

(** [Optional[T]] *)
Definition nullable (inner : Schema) : Schema :=
  fun v => match v with VNone => FOk VNone | _ => inner v end.

(** [@field_validator(..., mode="before")]: the function sees the raw
    input, its result goes to the field's own schema. *)
Definition function_before (f : PyValue -> res PyValue) (inner : Schema) : Schema :=
  fun v =>
    match of_res (f v) with
    | FOk v' => inner v'
    | r => r
    end.

(** [@field_validator(...)] (mode "after") on a [str] field: the
    function sees the validated string. *)
Definition function_after_str (inner : Schema) (f : string -> res string) : Schema :=
  fun v =>
    match inner v with
    | FOk (VStr s) =>
        of_res (match f s with Ok s' => Ok (VStr s') | Raise e => Raise e end)
    | r => r
    end.

(** One function that a type yields from [__get_validators__]: Pydantic
    makes it a validator that is called with the value and the
    validation info. *)
Definition function_plain (f : ValueFunction) : Schema :=
  fun v => of_res (call_with_info f v).

(** The functions that a type yields, one after the other, each on the
    result of the one before. *)
Fixpoint chain_schema (steps : list Schema) : Schema :=
  fun v =>
    match steps with
    | [] => FOk v
    | step :: steps' =>
        match step v with
        | FOk v' => chain_schema steps' v'
        | r => r
        end
    end.

(** A type that defines [__get_validators__]. *)
Definition get_validators_schema (fs : list ValueFunction) : Schema :=
  chain_schema (map function_plain fs).

Inductive Default : Type :=
| Required                       (* [Field(...)] or no default *)
| DefaultValue (v : PyValue)     (* [Field(default=v)] *)
| DefaultFactory_utcnow.         (* [Field(default_factory=datetime.utcnow)] *)

Record FieldInfo : Type := mkField {
  name : string;
  alias : option string;
  default : Default;
  schema : Schema
}.

(** [model_config]; a key that is not set has Pydantic's default.
    Extra keys of the input are ignored: no class of the module sets
    [extra]. *)
Record Config : Type := mkConfig {
  populate_by_name : bool;
  arbitrary_types_allowed : bool;
  from_attributes : bool
}.

Definition default_config : Config := mkConfig false false false.

(** The untyped field mapping given to a class: the keyword arguments,
    the dictionary, or the attributes of an object. *)
Abbreviation Mapping := (gmap string PyValue).

(** A validated instance: its fields in the order of declaration. *)
Abbreviation Instance := (list (string * PyValue)).

(** The clock: the successive readings of [datetime.utcnow()]. *)
Abbreviation Clock := (nat -> datetime).

Definition lookup_field (cfg : Config) (f : FieldInfo) (m : Mapping) : option PyValue :=
  match alias f with
  | Some a =>
      match m !! a with
      | Some v => Some v
      | None => if populate_by_name cfg then m !! name f else None
      end
  | None => m !! name f
  end.

(** One field: its result and the number of clock readings so far. *)
Definition field_result (cfg : Config) (clock : Clock) (m : Mapping)
    (reads : nat) (f : FieldInfo) : FieldResult * nat :=
  match lookup_field cfg f m with
  | Some v => (schema f v, reads)
  | None =>
      match default f with
      | Required => (FError missing, reads)
      | DefaultValue v => (FOk v, reads)
      | DefaultFactory_utcnow => (FOk (VDatetime (clock reads)), S reads)
      end
  end.

Inductive Collect : Type :=
| Collected (vals : list (string * PyValue)) (errs : list ErrorDetail)
| Escaped (e : Exception).

(** All fields in order: the values and the error lines collected, or
    the first exception that escapes. *)
Fixpoint validate_fields (cfg : Config) (clock : Clock) (m : Mapping)
    (reads : nat) (fs : list FieldInfo) : Collect :=
  match fs with
  | [] => Collected [] []
  | f :: fs' =>
      let '(r, reads') := field_result cfg clock m reads f in
      match r with
      | FRaise e => Escaped e
      | FOk v =>
          match validate_fields cfg clock m reads' fs' with
          | Collected vals errs => Collected ((name f, v) :: vals) errs
          | Escaped e => Escaped e
          end
      | FError t =>
          match validate_fields cfg clock m reads' fs' with
          | Collected vals errs => Collected vals (mkError (name f) t :: errs)
          | Escaped e => Escaped e
          end
      end
  end.

(** The outcome of building an instance of a class. *)
Inductive Outcome : Type :=
| Valid (inst : list (string * PyValue))
| ValidationError (errors : list ErrorDetail)
| Raised (e : Exception).

Definition model_validate (cfg : Config) (fs : list FieldInfo)
    (clock : Clock) (m : Mapping) : Outcome :=
  match validate_fields cfg clock m 0 fs with
  | Collected vals [] => Valid vals
  | Collected _ errs => ValidationError errs
  | Escaped e => Raised e
  end.

(** The attributes of an instance, as a mapping. *)
Definition attributes (inst : Instance) : Mapping := list_to_map inst.

(** [inst.f] *)
Definition getattr (inst : Instance) (f : string) : option PyValue :=
  attributes inst !! f.

(** The names of the fields an instance has. *)
Definition field_names (inst : Instance) : list string := fst <$> inst.

(** The error line of a field, when validating it gives one. *)
Definition field_error (cfg : Config) (m : Mapping) (f : FieldInfo) : option ErrType :=
  match lookup_field cfg f m with
  | Some v => match schema f v with FError t => Some t | _ => None end
  | None => match default f with Required => Some missing | _ => None end
  end.

(** The exception that escapes from a field, when one does. *)
Definition field_raises (cfg : Config) (m : Mapping) (f : FieldInfo) : option Exception :=
  match lookup_field cfg f m with
  | Some v => match schema f v with FRaise e => Some e | _ => None end
  | None => None
  end.

(** [v] is a value that validating the field can give. *)
Definition field_value (cfg : Config) (clock : Clock) (m : Mapping)
    (f : FieldInfo) (v : PyValue) : Prop :=
  match lookup_field cfg f m with
  | Some x => schema f x = FOk v
  | None =>
      match default f with
      | Required => False
      | DefaultValue d => v = d
      | DefaultFactory_utcnow => exists k, v = VDatetime (clock k)
      end
  end.

(** The error lines of all the fields, in the order of the fields. *)
Definition errors_of (cfg : Config) (m : Mapping) (fs : list FieldInfo) : list ErrorDetail :=
  omap (fun f => mkError (name f) <$> field_error cfg m f) fs.

End Pydantic.

Import Pydantic.

(* ====================================================================== *)
(** ** The schema classes *)
(* ====================================================================== *)

Module UserBase.

(** [UserBase.normalise_email(v)]: [v.strip().lower()].  A value that is
    not a [str] has no [strip]. *)
Definition normalise_email (v : PyValue) : res PyValue :=
  match as_str v with
  | Some s => Ok (VStr (PyStr.lower (PyStr.strip s)))
  | None => Raise (AttributeError "strip")
  end.

(** The value given for [email], if any, is a [str]. *)
Definition email_is_str (m : Mapping) : Prop :=
  match m !! "email" with
  | Some v => as_str v <> None
  | None => True
  end.

(** [full_name: str = Field(..., min_length=2, max_length=100)] *)
Definition full_name : FieldInfo :=
  mkField "full_name" None Required (str_schema (Some 2) (Some 100)).

(** [email: EmailStr = Field(...)], with the validator
    [normalise_email] in mode "before" *)
Definition email `{External} : FieldInfo :=
  mkField "email" None Required (function_before normalise_email email_schema).

(** [role: UserRole = Field(default=UserRole.INTERN)] *)
Definition role : FieldInfo :=
  mkField "role" None (DefaultValue (VRole INTERN)) enum_schema.

(** [is_active: bool = Field(default=True)] *)
Definition is_active `{External} : FieldInfo :=
  mkField "is_active" None (DefaultValue (VBool true)) bool_schema.

(** [avatar_url: Optional[str] = Field(default=None)] *)
Definition avatar_url : FieldInfo :=
  mkField "avatar_url" None (DefaultValue VNone) (nullable (str_schema None None)).

Definition fields `{External} : list FieldInfo :=
  [full_name; email; role; is_active; avatar_url].

Definition model_validate `{External} : Clock -> Mapping -> Outcome :=
  Pydantic.model_validate default_config fields.

End UserBase.

Module UserCreate.

(** [UserCreate.password_strength(v)] *)
Definition password_strength (v : string) : res string :=
  if negb (PyStr.any PyStr.isdigit v) then
    Raise (ValueError (Text "Password must contain at least one digit."))
  else if negb (PyStr.any PyStr.isupper v) then
    Raise (ValueError (Text "Password must contain at least one uppercase letter."))
  else Ok v.

(** [password: str = Field(..., min_length=8)], with the validator
    [password_strength] *)
Definition password : FieldInfo :=
  mkField "password" None Required
    (function_after_str (str_schema (Some 8) None) password_strength).

(** The fields of [UserBase], then the class's own. *)
Definition fields `{External} : list FieldInfo :=
  UserBase.fields ++ [password].

Definition model_validate `{External} : Clock -> Mapping -> Outcome :=
  Pydantic.model_validate default_config fields.

End UserCreate.

Module UserUpdate.

(** [full_name: Optional[str] = Field(default=None, min_length=2, max_length=100)] *)
Definition full_name : FieldInfo :=
  mkField "full_name" None (DefaultValue VNone)
    (nullable (str_schema (Some 2) (Some 100))).

(** [email: Optional[EmailStr] = Field(default=None)] *)
Definition email `{External} : FieldInfo :=
  mkField "email" None (DefaultValue VNone) (nullable email_schema).

(** [role: Optional[UserRole] = Field(default=None)] *)
Definition role : FieldInfo :=
  mkField "role" None (DefaultValue VNone) (nullable enum_schema).

(** [is_active: Optional[bool] = Field(default=None)] *)
Definition is_active `{External} : FieldInfo :=
  mkField "is_active" None (DefaultValue VNone) (nullable bool_schema).

(** [avatar_url: Optional[str] = Field(default=None)] *)
Definition avatar_url : FieldInfo :=
  mkField "avatar_url" None (DefaultValue VNone) (nullable (str_schema None None)).

(** The class derives from [BaseModel], not from [UserBase]. *)
Definition fields `{External} : list FieldInfo :=
  [full_name; email; role; is_active; avatar_url].

Definition model_validate `{External} : Clock -> Mapping -> Outcome :=
  Pydantic.model_validate default_config fields.

End UserUpdate.

Module UserInDB.

(** [id: Optional[PyObjectId] = Field(default=None, alias="_id")]; the
    type is validated by what [PyObjectId.__get_validators__] yields. *)
Definition id : FieldInfo :=
  mkField "id" (Some "_id") (DefaultValue VNone)
    (nullable (get_validators_schema PyObjectId.get_validators)).

(** [hashed_password: str = Field(...)] *)
Definition hashed_password : FieldInfo :=
  mkField "hashed_password" None Required (str_schema None None).

(** [created_at: datetime = Field(default_factory=datetime.utcnow)] *)
Definition created_at `{External} : FieldInfo :=
  mkField "created_at" None DefaultFactory_utcnow datetime_schema.

(** [updated_at: datetime = Field(default_factory=datetime.utcnow)] *)
Definition updated_at `{External} : FieldInfo :=
  mkField "updated_at" None DefaultFactory_utcnow datetime_schema.

(** The fields of [UserBase], then the class's own. *)
Definition fields `{External} : list FieldInfo :=
  UserBase.fields ++ [id; hashed_password; created_at; updated_at].

Definition model_config : Config :=
  {| populate_by_name := true;
     arbitrary_types_allowed := true;
     from_attributes := false |}.

Definition model_validate `{External} : Clock -> Mapping -> Outcome :=
  Pydantic.model_validate model_config fields.

(** The identifier that a mapping gives: the value under the alias, or
    without the alias the value under the name. *)
Definition given_id (m : Mapping) : option PyValue :=
  match m !! "_id" with
  | Some v => Some v
  | None => m !! "id"
  end.

End UserInDB.

Module UserResponse.

(** [id: str = Field(...)]; the other fields are annotated without
    default, so each is required.  The class derives from [BaseModel]. *)
Definition id : FieldInfo :=
  mkField "id" None Required (str_schema None None).

Definition full_name : FieldInfo :=
  mkField "full_name" None Required (str_schema None None).

Definition email `{External} : FieldInfo :=
  mkField "email" None Required email_schema.

Definition role : FieldInfo :=
  mkField "role" None Required enum_schema.

Definition is_active `{External} : FieldInfo :=
  mkField "is_active" None Required bool_schema.

Definition avatar_url : FieldInfo :=
  mkField "avatar_url" None Required (nullable (str_schema None None)).

Definition created_at `{External} : FieldInfo :=
  mkField "created_at" None Required datetime_schema.

Definition updated_at `{External} : FieldInfo :=
  mkField "updated_at" None Required datetime_schema.

Definition fields `{External} : list FieldInfo :=
  [id; full_name; email; role; is_active; avatar_url; created_at; updated_at].

Definition model_config : Config :=
  {| populate_by_name := false;
     arbitrary_types_allowed := false;
     from_attributes := true |}.

Definition model_validate `{External} : Clock -> Mapping -> Outcome :=
  Pydantic.model_validate model_config fields.

(** The public shape of a stored user: the class is built from the
    attributes of the [UserInDB] instance ([from_attributes]). *)
Definition from_stored `{External} (clock : Clock) (stored : Instance) : Outcome :=
  model_validate clock (attributes stored).

End UserResponse.

(* ====================================================================== *)
(** ** A reference instance of the external parsers *)
(* ====================================================================== *)

Module Reference.

Definition at_sign : ascii := "@"%char.
Definition dot : ascii := "."%char.

Fixpoint split_at (l : list ascii) : option (list ascii * list ascii) :=
  match l with
  | [] => None
  | c :: l' =>
      if Ascii.eqb c at_sign then Some ([], l')
      else match split_at l' with
           | Some (a, b) => Some (c :: a, b)
           | None => None
           end
  end.

Definition plain (c : ascii) : bool :=
  PyStr.is_ascii c && negb (PyStr.isspace c) && negb (Ascii.eqb c at_sign).

(** Modelled from the spec: the email-format rule ([EmailStr]) is not
    part of the repository; the specification only says that it rejects
    a string that is not a syntactically valid address and that
    normalisation is a separate step.  Here an address is one [@]
    between a non-empty local part and a domain with an inner dot, of
    ASCII characters without whitespace, and is returned as it is. *)
Definition validate_email (s : string) : option string :=
  match split_at (PyStr.chars s) with
  | Some (local_part, domain) =>
      match local_part, domain, rev domain with
      | _ :: _, d :: _, e :: _ =>
          if forallb plain local_part && forallb plain domain
             && existsb (Ascii.eqb dot) domain
             && negb (Ascii.eqb d dot) && negb (Ascii.eqb e dot)
          then Some s else None
      | _, _, _ => None
      end
  | None => None
  end.

(** The strings Pydantic reads as booleans, whatever their case. *)
Definition str_as_bool (s : string) : option bool :=
  let t := PyStr.lower s in
  if existsb (String.eqb t) ["0"; "off"; "f"; "false"; "n"; "no"] then Some false
  else if existsb (String.eqb t) ["1"; "on"; "t"; "true"; "y"; "yes"] then Some true
  else None.

(** No textual form of a datetime is read: the examples give datetimes
    as [datetime] objects. *)
Definition str_as_datetime (s : string) : option datetime := None.

Definition external : External :=
  Build_External validate_email str_as_bool str_as_datetime.


(** A clock that ticks once per reading. *)
Definition clock : Clock := fun n => (1700000000000000 + Z.of_nat n)%Z.

End Reference.

(* ====================================================================== *)
(** ** Field mappings used in the examples *)
(* ====================================================================== *)

Module Examples.

Definition oid : Bson.ObjectId :=
  Bson.mkObjectId [x00; x01; x02; x03; x04; x05; xa6; xb7; xc8; xd9; xea; xff].

(** A registration payload. *)
Definition jane : Mapping :=
  <["full_name" := VStr "Jane Doe"]>
    (<["email" := VStr "jane.doe@company.com"]>
       (<["password" := VStr "Passw0rdX"]> ∅)).

Definition jane_without_password : Mapping :=
  <["full_name" := VStr "Jane Doe"]>
    (<["email" := VStr "jane.doe@company.com"]> ∅).

Definition jane_with_identifier : Mapping :=
  <["identifier" := VStr "000102030405a6b7c8d9eaff"]> jane.

(** A one-character name and a password without digit or capital. *)
Definition two_bad_fields : Mapping :=
  <["full_name" := VStr "J"]>
    (<["email" := VStr "jane.doe@company.com"]>
       (<["password" := VStr "weakpassword"]> ∅)).

(** The same, and [null] for the email. *)
Definition two_bad_fields_null_email : Mapping :=
  <["email" := VNone]> two_bad_fields.

(** The fields of a response, with a given [id]. *)
Definition public_jane (id : PyValue) : Mapping :=
  <["id" := id]>
    (<["full_name" := VStr "Jane Doe"]>
       (<["email" := VStr "jane.doe@company.com"]>
          (<["role" := VStr "member"]>
             (<["is_active" := VBool true]>
                (<["avatar_url" := VNone]>
                   (<["created_at" := VDatetime 1700000000000000%Z]>
                      (<["updated_at" := VDatetime 1700000000000000%Z]> ∅))))))).

(** A document to store, before the database has given it an [_id]. *)
Definition stored_jane : Mapping :=
  <["full_name" := VStr "Jane Doe"]>
    (<["email" := VStr "jane.doe@company.com"]>
       (<["hashed_password" := VStr "$2b$12$abcdefghijklmnopqrstuv"]> ∅)).

(** The same document as read back, with its [_id]. *)
Definition stored_jane_with_id : Mapping :=
  <["_id" := VObjectId oid]> stored_jane.

(** The attributes of a stored user object whose [id] holds the string
    form of its identifier. *)
Definition stored_jane_attributes : Instance :=
  [("full_name", VStr "Jane Doe"); ("email", VStr "jane.doe@company.com");
   ("role", VRole INTERN); ("is_active", VBool true); ("avatar_url", VNone);
   ("id", VStr "000102030405a6b7c8d9eaff");
   ("hashed_password", VStr "$2b$12$abcdefghijklmnopqrstuv");
   ("created_at", VDatetime 1700000000000000%Z);
   ("updated_at", VDatetime 1700000000000001%Z)].

(** A password whose only digit is the superscript two, U+00B2. *)
Definition superscript_two : ascii := "178"%char.

Definition password_superscript : string :=
  String.append "ABCDEFG" (String superscript_two EmptyString).


(** An email with capitals, as a registration and as an update. *)
Definition jane_capitals : Mapping :=
  <["email" := VStr "Jane.Doe@company.com"]> jane.

Definition update_email_capitals : Mapping :=
  {["email" := VStr "Jane.Doe@company.com"]}.

End Examples.

(* ====================================================================== *)
(** ** Properties of the string operations *)
(* ====================================================================== *)

Module PyStrFacts.
Import PyStr.

Ltac by_cases_on_char c :=
  destruct c as [[] [] [] [] [] [] [] []]; vm_compute; try reflexivity; try discriminate; auto.

Lemma chars_of_chars (l : list ascii) : chars (of_chars l) = l.
Proof. apply list_ascii_of_string_of_list_ascii. Qed.

Lemma of_chars_chars (s : string) : of_chars (chars s) = s.
Proof. apply string_of_list_ascii_of_string. Qed.

Lemma len_of_chars (l : list ascii) : len (of_chars l) = length l.
Proof.
  unfold len, of_chars. induction l as [|c l IH]; simpl; [reflexivity|].
  now rewrite IH.
Qed.

Lemma len_chars (s : string) : length (chars s) = len s.
Proof. rewrite <- (of_chars_chars s) at 2. now rewrite len_of_chars. Qed.

Lemma isupper_lower_char (c : ascii) : isupper (lower_char c) = false.
Proof. by_cases_on_char c. Qed.

Lemma isspace_lower_char (c : ascii) : isspace (lower_char c) = isspace c.
Proof. by_cases_on_char c. Qed.

Lemma lower_char_idem (c : ascii) : lower_char (lower_char c) = lower_char c.
Proof. unfold lower_char at 1. now rewrite isupper_lower_char. Qed.

Lemma isdigit_ascii (c : ascii) :
  is_ascii c = true -> isdigit c = is_ascii_digit c.
Proof. by_cases_on_char c. Qed.

Lemma isupper_ascii (c : ascii) :
  is_ascii c = true -> isupper c = is_ascii_upper c.
Proof. by_cases_on_char c. Qed.












Lemma map_lower_idem (l : list ascii) :
  map lower_char (map lower_char l) = map lower_char l.
Proof.
  induction l as [|c l IH]; simpl; [reflexivity|].
  now rewrite lower_char_idem, IH.
Qed.





End PyStrFacts.

(* ====================================================================== *)
(** ** Properties of the identifier helper *)
(* ====================================================================== *)

Module BsonFacts.
Import Bson.

Lemma hex_of_byte_is_hex (b : byte) : forallb is_hex (hex_of_byte b) = true.
Proof. destruct b; reflexivity. Qed.

Lemma hexlify_length (bs : list byte) :
  length (concat (map hex_of_byte bs)) = (2 * length bs)%nat.
Proof. induction bs as [|b bs IH]; simpl; [reflexivity|]. rewrite IH. lia. Qed.

Lemma hexlify_is_hex (bs : list byte) :
  forallb is_hex (concat (map hex_of_byte bs)) = true.
Proof.
  induction bs as [|b bs IH]; [reflexivity|].
  cbn [map concat]. rewrite forallb_app, IH, hex_of_byte_is_hex. reflexivity.
Qed.

Lemma str_len (o : ObjectId) : PyStr.len (str o) = (2 * length (binary o))%nat.
Proof. unfold str. now rewrite PyStrFacts.len_of_chars, hexlify_length. Qed.

Lemma str_all_hex (o : ObjectId) : PyStr.all is_hex (str o) = true.
Proof. unfold PyStr.all, str. rewrite PyStrFacts.chars_of_chars. apply hexlify_is_hex. Qed.

Lemma str_is_valid (o : ObjectId) : wf o -> is_valid (str o) = true.
Proof.
  unfold wf, is_valid. intros H. rewrite str_len, H, str_all_hex. reflexivity.
Qed.

End BsonFacts.

(** ** Examples of use *)

Example validate_object_id :
  PyObjectId.validate
    (VObjectId Examples.oid)
  = Ok (VStr "000102030405a6b7c8d9eaff").
Proof. reflexivity. Qed.

Example validate_upper_case_string :
  PyObjectId.validate (VStr "000102030405A6B7C8D9EAFF") = Ok (VStr "000102030405A6B7C8D9EAFF").
Proof. reflexivity. Qed.

Example validate_short_string :
  PyObjectId.validate (VStr "abc") = Raise (ValueError (Invalid_ObjectId (VStr "abc"))).
Proof. reflexivity. Qed.

Example validate_none :
  PyObjectId.validate VNone = Raise (ValueError (Invalid_ObjectId VNone)).
Proof. reflexivity. Qed.

Example normalise_email_example :
  UserBase.normalise_email (VStr "  Jane.Doe@Company.COM ") = Ok (VStr "jane.doe@company.com").
Proof. reflexivity. Qed.

(* ====================================================================== *)
(** ** Properties of model validation *)
(* ====================================================================== *)

Module PydanticFacts.

Section Fields.
Variables (cfg : Config) (clock : Clock) (m : Mapping).

Lemma field_result_cases (reads : nat) (f : FieldInfo) :
  match field_result cfg clock m reads f with
  | (FOk v, _) =>
      field_error cfg m f = None /\ field_raises cfg m f = None
      /\ field_value cfg clock m f v
  | (FError t, _) => field_error cfg m f = Some t /\ field_raises cfg m f = None
  | (FRaise e, _) => field_raises cfg m f = Some e
  end.
Proof.
  unfold field_result, field_error, field_raises, field_value.
  destruct (lookup_field cfg f m) as [x|].
  - destruct (schema f x); auto.
  - destruct (default f); eauto.
Qed.

(** The error lines collected are those of the fields that fail, all of
    them, in the order of the fields. *)
Lemma collected_errors (fs : list FieldInfo) :
  forall reads vals errs,
    validate_fields cfg clock m reads fs = Collected vals errs ->
    errs = errors_of cfg m fs.
Proof.
  induction fs as [|f fs IH]; intros reads vals errs; simpl.
  - intros [= <- <-]. reflexivity.
  - pose proof (field_result_cases reads f) as Hf.
    destruct (field_result cfg clock m reads f) as [[v|t|e] reads'].
    + destruct Hf as (He & _ & _).
      destruct (validate_fields cfg clock m reads' fs) as [vals' errs'|] eqn:E; [|discriminate].
      intros [= <- <-]. unfold errors_of. cbn [omap list_omap]. rewrite He. simpl.
      exact (IH _ _ _ E).
    + destruct Hf as (He & _).
      destruct (validate_fields cfg clock m reads' fs) as [vals' errs'|] eqn:E; [|discriminate].
      intros [= <- <-]. unfold errors_of. cbn [omap list_omap]. rewrite He. simpl.
      f_equal. exact (IH _ _ _ E).
    + discriminate.
Qed.

(** Without error lines, every field has a value, in order. *)
Lemma collected_names (fs : list FieldInfo) :
  forall reads vals,
    validate_fields cfg clock m reads fs = Collected vals [] ->
    fst <$> vals = name <$> fs.
Proof.
  induction fs as [|f fs IH]; intros reads vals; simpl.
  - intros [= <-]. reflexivity.
  - destruct (field_result cfg clock m reads f) as [[v|t|e] reads'].
    + destruct (validate_fields cfg clock m reads' fs) as [vals' errs'|] eqn:E; [|discriminate].
      intros [= <- ->]. simpl. f_equal. exact (IH _ _ E).
    + destruct (validate_fields cfg clock m reads' fs) as [vals' errs'|]; discriminate.
    + discriminate.
Qed.

(** Every value collected is a value of the field it is stored under. *)
Lemma collected_values (fs : list FieldInfo) :
  forall reads vals errs n v,
    validate_fields cfg clock m reads fs = Collected vals errs ->
    (n, v) ∈ vals ->
    exists f, f ∈ fs /\ name f = n /\ field_value cfg clock m f v.
Proof.
  induction fs as [|f fs IH]; intros reads vals errs n v; simpl.
  - intros [= <- <-] Hin. inversion Hin.
  - pose proof (field_result_cases reads f) as Hf.
    destruct (field_result cfg clock m reads f) as [[x|t|e] reads'].
    + destruct Hf as (_ & _ & Hv).
      destruct (validate_fields cfg clock m reads' fs) as [vals' errs'|] eqn:E; [|discriminate].
      intros [= <- <-] Hin. apply elem_of_cons in Hin as [[= -> ->]|Hin].
      * exists f. split; [left|]; auto.
      * destruct (IH _ _ _ _ _ E Hin) as (g & Hg & Hn & Hgv).
        exists g. split; [now right|]. auto.
    + destruct (validate_fields cfg clock m reads' fs) as [vals' errs'|] eqn:E; [|discriminate].
      intros [= <- <-] Hin.
      destruct (IH _ _ _ _ _ E Hin) as (g & Hg & Hn & Hgv).
      exists g. split; [now right|]. auto.
    + discriminate.
Qed.

(** An exception escapes only from a field that raises it. *)
Lemma escaped_from (fs : list FieldInfo) :
  forall reads e,
    validate_fields cfg clock m reads fs = Escaped e ->
    exists f, f ∈ fs /\ field_raises cfg m f = Some e.
Proof.
  induction fs as [|f fs IH]; intros reads e; simpl; [discriminate|].
  pose proof (field_result_cases reads f) as Hf.
  destruct (field_result cfg clock m reads f) as [[x|t|e'] reads'].
  - destruct (validate_fields cfg clock m reads' fs) as [vals' errs'|] eqn:E; [discriminate|].
    intros [= <-]. destruct (IH _ _ E) as (g & Hg & Hr). exists g. split; [now right|auto].
  - destruct (validate_fields cfg clock m reads' fs) as [vals' errs'|] eqn:E; [discriminate|].
    intros [= <-]. destruct (IH _ _ E) as (g & Hg & Hr). exists g. split; [now right|auto].
  - intros [= <-]. exists f. split; [left|auto].
Qed.

(** The outcome of [model_validate], case by case. *)
Lemma model_validate_cases (fs : list FieldInfo) :
  match model_validate cfg fs clock m with
  | Valid inst =>
      errors_of cfg m fs = [] /\ field_names inst = name <$> fs
      /\ (forall n v, (n, v) ∈ inst ->
            exists f, f ∈ fs /\ name f = n /\ field_value cfg clock m f v)
  | ValidationError errs => errs = errors_of cfg m fs /\ errs <> []
  | Raised e => exists f, f ∈ fs /\ field_raises cfg m f = Some e
  end.
Proof.
  unfold model_validate.
  destruct (validate_fields cfg clock m 0 fs) as [vals errs|e] eqn:E.
  - pose proof (collected_errors _ _ _ _ E) as He.
    destruct errs as [|e0 errs].
    + split; [auto|]. split; [exact (collected_names _ _ _ E)|].
      intros n v. exact (collected_values _ _ _ _ _ _ E).
    + split; [exact He | discriminate].
  - exact (escaped_from _ _ _ E).
Qed.

Lemma same_name_same_field (fs : list FieldInfo) (f g : FieldInfo) :
  NoDup (name <$> fs) -> f ∈ fs -> g ∈ fs -> name f = name g -> f = g.
Proof.
  induction fs as [|h fs IH]; [intros _ Hf; inversion Hf|].
  rewrite fmap_cons, NoDup_cons, !elem_of_cons. intros [Hh Hnd] [->|Hf] [->|Hg] Hn; auto.
  - exfalso. apply Hh. rewrite Hn. now apply list_elem_of_fmap_2.
  - exfalso. apply Hh. rewrite <- Hn. now apply list_elem_of_fmap_2.
Qed.

(** In an instance every field of the class is an attribute, with a
    value of that field. *)
Lemma valid_has_attr (fs : list FieldInfo) (inst : Instance) (f : FieldInfo) :
  model_validate cfg fs clock m = Valid inst ->
  NoDup (name <$> fs) -> f ∈ fs ->
  exists v, getattr inst (name f) = Some v /\ field_value cfg clock m f v.
Proof.
  intros Hv Hnd Hf. pose proof (model_validate_cases fs) as Hc. rewrite Hv in Hc.
  destruct Hc as (_ & Hnames & Hvals). unfold field_names in Hnames.
  assert (Hn : name f ∈ fst <$> inst) by (rewrite Hnames; now apply list_elem_of_fmap_2).
  apply list_elem_of_fmap in Hn as ([n v] & Hn & Hin). simpl in Hn. subst n.
  exists v. split.
  - unfold getattr, attributes. apply elem_of_list_to_map_1; [|exact Hin].
    now rewrite Hnames.
  - destruct (Hvals _ _ Hin) as (g & Hg & Hgn & Hgv).
    now rewrite (same_name_same_field fs f g Hnd Hf Hg (eq_sym Hgn)).
Qed.

(** When no field raises, the outcome is an instance or the error lines
    of all the failing fields. *)
Lemma model_validate_aggregates (fs : list FieldInfo) :
  (forall f, f ∈ fs -> field_raises cfg m f = None) ->
  match errors_of cfg m fs with
  | [] => exists inst, model_validate cfg fs clock m = Valid inst
  | errs => model_validate cfg fs clock m = ValidationError errs
  end.
Proof.
  intros Hno. pose proof (model_validate_cases fs) as H.
  destruct (model_validate cfg fs clock m) as [inst|errs|e].
  - destruct H as (-> & _). eauto.
  - destruct H as (<- & Hne). destruct errs; [congruence|reflexivity].
  - destruct H as (f & Hf & Hr). rewrite (Hno f Hf) in Hr. discriminate.
Qed.

(** A failing field has its line among the error lines. *)
Lemma errors_of_complete (fs : list FieldInfo) (f : FieldInfo) (t : ErrType) :
  f ∈ fs -> field_error cfg m f = Some t -> mkError (name f) t ∈ errors_of cfg m fs.
Proof.
  intros Hf He. unfold errors_of. apply list_elem_of_omap.
  exists f. split; [exact Hf|]. now rewrite He.
Qed.

(** Every error line is the line of a failing field. *)
Lemma errors_of_sound (fs : list FieldInfo) (e : ErrorDetail) :
  e ∈ errors_of cfg m fs ->
  exists f, f ∈ fs /\ loc e = name f /\ field_error cfg m f = Some (type e).
Proof.
  unfold errors_of. intros H. apply list_elem_of_omap in H as (f & Hf & He).
  exists f. split; [exact Hf|].
  destruct (field_error cfg m f) as [t|]; [|discriminate].
  injection He as <-. auto.
Qed.

End Fields.

Lemma lookup_field_no_alias (cfg : Config) (m : Mapping) (f : FieldInfo) :
  alias f = None -> lookup_field cfg f m = m !! name f.
Proof. unfold lookup_field. now intros ->. Qed.

(** A key that is neither the name nor the alias of a field has no
    influence on the outcome. *)
Lemma lookup_field_insert (cfg : Config) (m : Mapping) (k : string) (v : PyValue)
    (f : FieldInfo) :
  name f <> k -> alias f <> Some k ->
  lookup_field cfg f (<[k := v]> m) = lookup_field cfg f m.
Proof.
  intros Hn Ha. unfold lookup_field.
  destruct (alias f) as [a|].
  - assert (k <> a) by congruence.
    rewrite !lookup_insert_ne by congruence. reflexivity.
  - now rewrite lookup_insert_ne by congruence.
Qed.

Lemma validate_fields_insert (cfg : Config) (clock : Clock) (m : Mapping)
    (k : string) (v : PyValue) (fs : list FieldInfo) :
  Forall (fun f => name f <> k /\ alias f <> Some k) fs ->
  forall reads,
    validate_fields cfg clock (<[k := v]> m) reads fs
    = validate_fields cfg clock m reads fs.
Proof.
  induction 1 as [|f fs [Hn Ha] _ IH]; intros reads; simpl; [reflexivity|].
  unfold field_result. rewrite (lookup_field_insert _ _ _ _ _ Hn Ha).
  destruct (match lookup_field cfg f m with Some _ => _ | None => _ end) as [[x|t|e] reads'];
    try rewrite IH; reflexivity.
Qed.

Lemma model_validate_insert (cfg : Config) (clock : Clock) (m : Mapping)
    (k : string) (v : PyValue) (fs : list FieldInfo) :
  Forall (fun f => name f <> k /\ alias f <> Some k) fs ->
  model_validate cfg fs clock (<[k := v]> m) = model_validate cfg fs clock m.
Proof. intros H. unfold model_validate. now rewrite validate_fields_insert. Qed.

End PydanticFacts.

(* ====================================================================== *)
(** ** Properties of the schemas *)
(* ====================================================================== *)

Module SchemaFacts.

(** Case analysis on everything a schema inspects. *)
Ltac schema_cases :=
  repeat match goal with
         | |- context [match ?x with _ => _ end] => destruct x eqn:?
         | H : context [match ?x with _ => _ end] |- _ => destruct x eqn:?
         end;
  try discriminate; try congruence; auto.

Lemma str_schema_total (lo hi : option nat) (v : PyValue) :
  (exists s, as_str v = Some s /\ str_schema lo hi v = FOk (VStr s))
  \/ (exists t, str_schema lo hi v = FError t /\ t <> extra_forbidden /\ t <> missing).
Proof.
  unfold str_schema. destruct (as_str v) as [s|]; [|right; eexists; repeat split; discriminate].
  destruct (match lo with Some n => _ | None => _ end);
    [right; eexists; repeat split; discriminate|].
  destruct (match hi with Some n => _ | None => _ end);
    [right; eexists; repeat split; discriminate|].
  left. eauto.
Qed.

Lemma str_schema_no_raise (lo hi : option nat) (v : PyValue) (e : Exception) :
  str_schema lo hi v <> FRaise e.
Proof. destruct (str_schema_total lo hi v) as [(s & _ & ->)|(t & -> & _)]; discriminate. Qed.

Lemma email_schema_no_raise `{External} (v : PyValue) (e : Exception) :
  email_schema v <> FRaise e.
Proof. unfold email_schema. schema_cases. Qed.

Lemma enum_schema_no_raise (v : PyValue) (e : Exception) : enum_schema v <> FRaise e.
Proof. unfold enum_schema. schema_cases. Qed.

Lemma bool_schema_no_raise `{External} (v : PyValue) (e : Exception) :
  bool_schema v <> FRaise e.
Proof. unfold bool_schema. schema_cases. Qed.

Lemma datetime_schema_no_raise `{External} (v : PyValue) (e : Exception) :
  datetime_schema v <> FRaise e.
Proof. unfold datetime_schema. schema_cases. Qed.

Lemma nullable_no_raise (inner : Schema) (v : PyValue) (e : Exception) :
  (forall e', inner v <> FRaise e') -> nullable inner v <> FRaise e.
Proof. unfold nullable. destruct v; auto; discriminate. Qed.

(** What [__get_validators__] of [PyObjectId] makes of any value: the
    call of [validate] with the value and the info fails on its
    arguments. *)
Lemma object_id_schema (v : PyValue) :
  get_validators_schema PyObjectId.get_validators v
  = FRaise (TypeError "PyObjectId.validate" 2 3).
Proof. reflexivity. Qed.

(** The identifier field: [None] passes, anything else raises. *)
Lemma id_field_schema (v : PyValue) :
  schema UserInDB.id v
  = match v with
    | VNone => FOk VNone
    | _ => FRaise (TypeError "PyObjectId.validate" 2 3)
    end.
Proof. destruct v; reflexivity. Qed.

Lemma password_no_raise (v : PyValue) (e : Exception) :
  schema UserCreate.password v <> FRaise e.
Proof.
  cbn [schema UserCreate.password]. unfold function_after_str.
  destruct (str_schema_total (Some 8) None v) as [(s & _ & ->)|(t & -> & _)]; [|discriminate].
  unfold UserCreate.password_strength, of_res. schema_cases.
Qed.

(** The email field of [UserBase] lets an exception escape exactly when
    the value is not a [str]: [normalise_email] then fails on [strip]. *)
Lemma base_email_raises `{External} (v : PyValue) (e : Exception) :
  schema UserBase.email v = FRaise e <->
  as_str v = None /\ e = AttributeError "strip".
Proof.
  cbn [schema UserBase.email]. unfold function_before, UserBase.normalise_email.
  destruct (as_str v) as [s|]; cbn [of_res].
  - split; [|intros [? _]; discriminate].
    intros Hr. now apply email_schema_no_raise in Hr.
  - cbn. split; [intros [= <-]; auto | intros [_ ->]; reflexivity].
Qed.

(** The email field of [UserBase] on a string: normalise, then check. *)
Lemma base_email_on_str `{External} (s : string) :
  schema UserBase.email (VStr s) = email_schema (VStr (PyStr.lower (PyStr.strip s))).
Proof. reflexivity. Qed.

Lemma base_fields_raise `{External} (cfg : Config) (m : Mapping) (f : FieldInfo)
    (e : Exception) :
  f ∈ UserBase.fields -> field_raises cfg m f = Some e ->
  f = UserBase.email /\ e = AttributeError "strip"
  /\ exists v, m !! "email" = Some v /\ as_str v = None.
Proof.
  unfold UserBase.fields. rewrite !elem_of_cons, elem_of_nil.
  unfold field_raises. intros [->|[->|[->|[->|[->|[]]]]]];
    rewrite PydanticFacts.lookup_field_no_alias by reflexivity.
  - destruct (m !! name UserBase.full_name) as [v|]; [|discriminate].
    destruct (schema UserBase.full_name v) eqn:E; try discriminate.
    now apply str_schema_no_raise in E.
  - change (name UserBase.email) with "email".
    destruct (m !! "email") as [v|]; [|discriminate].
    destruct (schema UserBase.email v) eqn:E; try discriminate.
    intros [= <-]. apply base_email_raises in E as [Hs ->]. eauto.
  - destruct (m !! name UserBase.role) as [v|]; [|discriminate].
    destruct (schema UserBase.role v) eqn:E; try discriminate.
    now apply enum_schema_no_raise in E.
  - destruct (m !! name UserBase.is_active) as [v|]; [|discriminate].
    destruct (schema UserBase.is_active v) eqn:E; try discriminate.
    now apply bool_schema_no_raise in E.
  - destruct (m !! name UserBase.avatar_url) as [v|]; [|discriminate].
    destruct (schema UserBase.avatar_url v) eqn:E; try discriminate.
    apply nullable_no_raise in E; [easy|]. intros e'. apply str_schema_no_raise.
Qed.

Lemma create_fields_no_raise `{External} (m : Mapping) (f : FieldInfo) :
  UserBase.email_is_str m ->
  f ∈ UserCreate.fields -> field_raises default_config m f = None.
Proof.
  intros Hm Hf. destruct (field_raises default_config m f) as [e|] eqn:E; [|reflexivity].
  exfalso. unfold UserCreate.fields in Hf. apply elem_of_app in Hf as [Hf|Hf].
  - destruct (base_fields_raise _ _ _ _ Hf E) as (_ & _ & v & Hv & Hs).
    unfold UserBase.email_is_str in Hm. rewrite Hv in Hm. contradiction.
  - apply list_elem_of_singleton in Hf as ->.
    unfold field_raises in E.
    rewrite PydanticFacts.lookup_field_no_alias in E by reflexivity.
    destruct (m !! name UserCreate.password) as [v|]; [|discriminate].
    destruct (schema UserCreate.password v) eqn:E'; try discriminate.
    now apply password_no_raise in E'.
Qed.

End SchemaFacts.

(* ====================================================================== *)
(** ** The identifier codec *)
(* ====================================================================== *)

(** C5 (as amended).  [fromWire] fails exactly on the invalid
    candidates: on a string of the wrong length or with a character that
    is not a hexadecimal digit it raises the [ValueError] "Invalid
    ObjectId" that carries the string, the module's InvalidIdentifier
    error; on a valid string it succeeds and returns that same string.
    No value of the storage-native type is built. *)
Theorem fromWire_accepts_valid_strings (s : string) :
  PyObjectId.fromWire s
  = (if Bson.is_valid s then Ok (VStr s)
     else Raise (ValueError (Invalid_ObjectId (VStr s))))
  /\ kind (mkError "id" (value_error (Invalid_ObjectId (VStr s)))) = InvalidIdentifier
  /\ Bson.is_valid s
     = Nat.eqb (PyStr.len s) 24 && PyStr.all Bson.is_hex s
  /\ forall o, PyObjectId.fromWire s <> Ok (VObjectId o).
Proof.
  unfold PyObjectId.fromWire, PyObjectId.validate. cbn [as_str].
  destruct (Bson.is_valid s) eqn:E; repeat split; auto; discriminate.
Qed.

(** C5, the claim as written fails: on a valid candidate [fromWire]
    returns the candidate, a string, and not a decoded storage-native
    identifier. *)
Lemma fromWire_returns_no_internal_value :
  Bson.is_valid "000102030405a6b7c8d9eaff" = true
  /\ PyObjectId.fromWire "000102030405a6b7c8d9eaff" = Ok (VStr "000102030405a6b7c8d9eaff")
  /\ ~ exists o, PyObjectId.fromWire "000102030405a6b7c8d9eaff" = Ok (VObjectId o).
Proof.
  split; [reflexivity|]. split; [reflexivity|]. intros [o Ho]. discriminate Ho.
Qed.

(** C6 (as amended).  For every storage-native identifier [x], [toWire]
    succeeds with the 24 lower-case hexadecimal digits of [x], the same
    at every call, and the codec applied to that wire form succeeds and
    returns the wire form again: the round trip ends on the string and
    not on [x]. *)
Theorem codec_round_trip_wire_form (x : Bson.ObjectId) (Hx : Bson.wf x) :
  PyObjectId.toWire x = Ok (VStr (Bson.str x))
  /\ PyStr.len (Bson.str x) = 24%nat
  /\ PyStr.all Bson.is_hex (Bson.str x) = true
  /\ PyObjectId.fromWire (Bson.str x) = Ok (VStr (Bson.str x))
  /\ PyObjectId.round_trip x = PyObjectId.toWire x.
Proof.
  pose proof (BsonFacts.str_is_valid x Hx) as Hv.
  assert (Hf : PyObjectId.fromWire (Bson.str x) = Ok (VStr (Bson.str x))).
  { unfold PyObjectId.fromWire, PyObjectId.validate. cbn [as_str]. now rewrite Hv. }
  split; [reflexivity|]. split; [rewrite BsonFacts.str_len, Hx; reflexivity|].
  split; [apply BsonFacts.str_all_hex|]. split; [exact Hf|].
  unfold PyObjectId.round_trip. cbn. exact Hf.
Qed.

Lemma codec_round_trip_wire_form_witness :
  Bson.wf Examples.oid
  /\ PyObjectId.round_trip Examples.oid
     = PyObjectId.toWire
         Examples.oid.
Proof.
  split; [reflexivity|].
  apply (codec_round_trip_wire_form
           Examples.oid).
  reflexivity.
Defined.

(** C6, the claim as written fails: the round trip of an identifier is
    its wire string, which is not the identifier. *)
Lemma round_trip_is_not_identity :
  PyObjectId.round_trip Examples.oid
  = Ok (VStr "000102030405a6b7c8d9eaff")
  /\ PyObjectId.round_trip Examples.oid
     <> Ok (VObjectId
              Examples.oid).
Proof. split; [reflexivity|]. intros H. discriminate H. Qed.

(* ====================================================================== *)
(** ** The field validators *)
(* ====================================================================== *)

Module UnicodeFacts.
Import Unicode.

Lemma code_latin1 (c : ascii) : latin1 (PyStr.code c) = true.
Proof.
  unfold latin1, PyStr.code. apply N.ltb_lt. apply N_ascii_bounded.
Qed.

Lemma ascii_of_code (c : ascii) : ascii_of_N (PyStr.code c) = c.
Proof. apply ascii_N_embedding. Qed.

Lemma isspace_code `{Database} (c : ascii) : isspace (PyStr.code c) = PyStr.isspace c.
Proof. unfold isspace. now rewrite code_latin1, ascii_of_code. Qed.

Lemma isupper_code `{Database} (c : ascii) : isupper (PyStr.code c) = PyStr.isupper c.
Proof. unfold isupper. now rewrite code_latin1, ascii_of_code. Qed.

Lemma lstrip_codes `{Database} (l : list ascii) :
  lstrip (map PyStr.code l) = map PyStr.code (PyStr.lstrip_chars l).
Proof.
  induction l as [|c l IH]; [reflexivity|]. cbn [map lstrip PyStr.lstrip_chars].
  rewrite isspace_code. destruct (PyStr.isspace c); auto.
Qed.

Lemma strip_codes `{Database} (l : list ascii) :
  strip (map PyStr.code l) = map PyStr.code (PyStr.strip_chars l).
Proof.
  unfold strip, rstrip, PyStr.strip_chars, PyStr.rstrip_chars.
  now rewrite lstrip_codes, <- map_rev, lstrip_codes, map_rev.
Qed.

Lemma lower_codes `{Database} (l : list ascii) (before : list N) :
  lower_from before (map PyStr.code l) = map PyStr.code (map PyStr.lower_char l).
Proof.
  revert before. induction l as [|c l IH]; intros before; [reflexivity|].
  cbn [map lower_from]. unfold lower_at. rewrite code_latin1, ascii_of_code, IH.
  reflexivity.
Qed.

(** On a string of the range U+0000..U+00FF the normalisation of code
    points is the normalisation of characters, whatever the tables for
    the code points above the range are. *)
Lemma normalise_email_of_string `{Database} (s : string) :
  normalise_email (of_string s) = of_string (PyStr.lower (PyStr.strip s)).
Proof.
  unfold normalise_email, lower, of_string, PyStr.lower, PyStr.strip.
  now rewrite strip_codes, lower_codes, !PyStrFacts.chars_of_chars.
Qed.

End UnicodeFacts.



(** C7 (as amended).  A password of at least eight characters passes
    the password field exactly when one of its characters is a digit in
    the sense of [str.isdigit] (0-9, and also the superscripts 1, 2, 3)
    and one is an uppercase letter in the sense of [str.isupper]; on
    ASCII text these are the digits 0-9 and the letters A-Z.  It passes
    unchanged; a lowercase letter is not required.  "abcdefgh" is
    rejected, "Abcdefg1" and "ABCDEFG1" are accepted. *)
Theorem password_strength_policy (v : string) (Hlen : 8 <= PyStr.len v) :
  (UserCreate.password_strength v = Ok v
   <-> PyStr.any PyStr.isdigit v = true /\ PyStr.any PyStr.isupper v = true)
  /\ (forall r, UserCreate.password_strength v = Ok r -> r = v)
  /\ (schema UserCreate.password (VStr v) = FOk (VStr v)
      <-> PyStr.any PyStr.isdigit v = true /\ PyStr.any PyStr.isupper v = true)
  /\ (forall r, schema UserCreate.password (VStr v) = FOk r -> r = VStr v)
  /\ (PyStr.all PyStr.is_ascii v = true ->
      PyStr.any PyStr.isdigit v = PyStr.any PyStr.is_ascii_digit v
      /\ PyStr.any PyStr.isupper v = PyStr.any PyStr.is_ascii_upper v)
  /\ (exists t, schema UserCreate.password (VStr "abcdefgh") = FError t)
  /\ schema UserCreate.password (VStr "Abcdefg1") = FOk (VStr "Abcdefg1")
  /\ schema UserCreate.password (VStr "ABCDEFG1") = FOk (VStr "ABCDEFG1").
Proof.
  assert (Hstr : str_schema (Some 8) None (VStr v) = FOk (VStr v)).
  { unfold str_schema. cbn [as_str].
    destruct (Nat.ltb_spec (PyStr.len v) 8) as [Hlt|_]; [lia|reflexivity]. }
  assert (Hfield : schema UserCreate.password (VStr v)
                   = of_res (match UserCreate.password_strength v with
                             | Ok s' => Ok (VStr s') | Raise e => Raise e end)).
  { cbn [schema UserCreate.password]. unfold function_after_str. now rewrite Hstr. }
  assert (Hfun : (UserCreate.password_strength v = Ok v
                  <-> PyStr.any PyStr.isdigit v = true /\ PyStr.any PyStr.isupper v = true)
                 /\ (forall r, UserCreate.password_strength v = Ok r -> r = v)).
  { unfold UserCreate.password_strength.
    destruct (PyStr.any PyStr.isdigit v), (PyStr.any PyStr.isupper v); cbn;
      (split; [split; [try discriminate; auto | intros [? ?]; try discriminate; auto]
              | intros r Hr; try discriminate; congruence]). }
  destruct Hfun as [Hiff Hsame].
  split; [exact Hiff|]. split; [exact Hsame|]. split.
  { rewrite Hfield.
    destruct (UserCreate.password_strength v) as [r|[msg|a|fn n1 n2]] eqn:E; cbn.
    - pose proof (Hsame r eq_refl) as ->.
      split; [intros _; now apply Hiff | reflexivity].
    - split; [discriminate | intros Hd; apply Hiff in Hd; discriminate].
    - split; [discriminate | intros Hd; apply Hiff in Hd; discriminate].
    - split; [discriminate | intros Hd; apply Hiff in Hd; discriminate]. }
  split.
  { intros r. rewrite Hfield.
    destruct (UserCreate.password_strength v) as [r'|[msg|a|fn n1 n2]] eqn:E; cbn;
      intros Hr; try discriminate.
    rewrite (Hsame r' eq_refl) in Hr. congruence. }
  split.
  { unfold PyStr.any, PyStr.all. induction (PyStr.chars v) as [|c l IH]; [auto|].
    cbn [forallb existsb]. intros Hc. apply andb_prop in Hc as [Hc Hl].
    destruct (IH Hl) as [-> ->].
    now rewrite (PyStrFacts.isdigit_ascii c Hc), (PyStrFacts.isupper_ascii c Hc). }
  split; [eexists; reflexivity|]. split; reflexivity.
Qed.

Lemma password_strength_policy_witness :
  8 <= PyStr.len "Passw0rdPassw0rd"
  /\ (schema UserCreate.password (VStr "Passw0rdPassw0rd") = FOk (VStr "Passw0rdPassw0rd")
      <-> PyStr.any PyStr.isdigit "Passw0rdPassw0rd" = true
          /\ PyStr.any PyStr.isupper "Passw0rdPassw0rd" = true).
Proof.
  assert (H0 : 8 <= PyStr.len "Passw0rdPassw0rd") by (vm_compute; lia).
  split; [exact H0|].
  exact (proj1 (proj2 (proj2 (password_strength_policy "Passw0rdPassw0rd" H0)))).
Defined.

(** C7, the claim as written fails: a password of eight characters with
    an uppercase letter and no decimal digit is accepted, its only digit
    being the superscript two. *)
Lemma password_without_decimal_digit_is_accepted :
  PyStr.len Examples.password_superscript = 8%nat
  /\ PyStr.any PyStr.isdecimal Examples.password_superscript = false
  /\ PyStr.any PyStr.isupper Examples.password_superscript = true
  /\ schema UserCreate.password (VStr Examples.password_superscript)
     = FOk (VStr Examples.password_superscript)
  /\ UserCreate.password_strength Examples.password_superscript
     = Ok Examples.password_superscript.
Proof. repeat split; reflexivity. Qed.

(* ====================================================================== *)
(** ** Building a Create shape *)
(* ====================================================================== *)

Module CreateFacts.

Lemma password_in_fields `{External} : UserCreate.password ∈ UserCreate.fields.
Proof. unfold UserCreate.fields. apply elem_of_app. right. apply list_elem_of_singleton. reflexivity. Qed.

Lemma fields_ignore_identifier `{External} :
  Forall (fun f => name f <> "identifier" /\ alias f <> Some "identifier") UserCreate.fields.
Proof. repeat constructor; discriminate. Qed.

Lemma never_forbidden `{External} (m : Mapping) (f : FieldInfo) :
  f ∈ UserCreate.fields -> field_error default_config m f <> Some extra_forbidden.
Proof.
  unfold UserCreate.fields, UserBase.fields. rewrite elem_of_app, !elem_of_cons, !elem_of_nil.
  unfold field_error.
  intros [[->|[->|[->|[->|[->|[]]]]]]|[->|[]]];
    rewrite PydanticFacts.lookup_field_no_alias by reflexivity;
    match goal with |- context [m !! ?k] => destruct (m !! k) as [v|] end;
    try discriminate;
    cbv [schema default UserBase.full_name UserBase.email UserBase.role
         UserBase.is_active UserBase.avatar_url UserCreate.password
         str_schema email_schema enum_schema bool_schema nullable
         function_before function_after_str of_res
         UserBase.normalise_email UserCreate.password_strength];
    SchemaFacts.schema_cases.
Qed.

End CreateFacts.

(** C1 (as amended).  A Create shape built from a field mapping without
    the key "password" (the email, if given, being a string) fails with
    a validation error that has a MissingField line for "password".  A
    key "identifier" is not rejected: it is ignored, the outcome is the
    outcome without it, and no error of construction is ever a
    ForbiddenField error. *)
Theorem create_missing_password_and_extra_key `{External}
    (clock : Clock) (m : Mapping) :
  (UserBase.email_is_str m -> m !! "password" = None ->
   exists errs,
     UserCreate.model_validate clock m = ValidationError errs
     /\ mkError "password" missing ∈ errs
     /\ kind (mkError "password" missing) = MissingField)
  /\ (forall v,
        UserCreate.model_validate clock (<["identifier" := v]> m)
        = UserCreate.model_validate clock m)
  /\ (forall errs e,
        UserCreate.model_validate clock m = ValidationError errs ->
        e ∈ errs -> kind e <> ForbiddenField).
Proof.
  split; [|split].
  - intros Hemail Hpw.
    assert (Hin : mkError "password" missing ∈ errors_of default_config m UserCreate.fields).
    { apply (PydanticFacts.errors_of_complete _ _ _ UserCreate.password);
        [apply CreateFacts.password_in_fields|].
      unfold field_error. rewrite PydanticFacts.lookup_field_no_alias by reflexivity.
      change (name UserCreate.password) with "password". now rewrite Hpw. }
    pose proof (PydanticFacts.model_validate_aggregates default_config clock m
                  UserCreate.fields
                  (fun f Hf => SchemaFacts.create_fields_no_raise m f Hemail Hf)) as Hagg.
    destruct (errors_of default_config m UserCreate.fields) as [|e0 errs] eqn:E.
    + inversion Hin.
    + exists (e0 :: errs). split; [exact Hagg|]. split; [exact Hin | reflexivity].
  - intros v. apply PydanticFacts.model_validate_insert, CreateFacts.fields_ignore_identifier.
  - intros errs e Hv He.
    pose proof (PydanticFacts.model_validate_cases default_config clock m UserCreate.fields) as Hc.
    unfold UserCreate.model_validate in Hv. rewrite Hv in Hc. destruct Hc as [-> _].
    apply PydanticFacts.errors_of_sound in He as (f & Hf & _ & Hfe).
    pose proof (CreateFacts.never_forbidden m f Hf) as Hnf.
    unfold kind. destruct (type e) as [| | | | | | | | | |[]]; try discriminate. congruence.
Qed.

Lemma create_missing_password_and_extra_key_witness :
  UserBase.email_is_str Examples.jane_without_password
  /\ Examples.jane_without_password !! "password" = None
  /\ exists errs,
       @UserCreate.model_validate Reference.external Reference.clock
         Examples.jane_without_password = ValidationError errs
       /\ mkError "password" missing ∈ errs
       /\ kind (mkError "password" missing) = MissingField.
Proof.
  assert (H1 : UserBase.email_is_str Examples.jane_without_password)
    by (vm_compute; discriminate).
  assert (H2 : Examples.jane_without_password !! "password" = None) by reflexivity.
  split; [exact H1|]. split; [exact H2|].
  exact (proj1 (@create_missing_password_and_extra_key Reference.external
                  Reference.clock Examples.jane_without_password) H1 H2).
Defined.

(** C1, the claim as written fails: a Create payload with an
    "identifier" key is accepted, and the key is dropped. *)
Lemma create_accepts_identifier_key :
  Examples.jane_with_identifier !! "identifier" = Some (VStr "000102030405a6b7c8d9eaff")
  /\ @UserCreate.model_validate Reference.external Reference.clock
       Examples.jane_with_identifier
     = Valid [("full_name", VStr "Jane Doe"); ("email", VStr "jane.doe@company.com");
              ("role", VRole INTERN); ("is_active", VBool true);
              ("avatar_url", VNone); ("password", VStr "Passw0rdX")].
Proof. split; reflexivity. Qed.

(** Create reports every failing field when no validator lets an
    exception escape, that is when the email, if given, is a string. *)
Lemma create_aggregates_errors `{External} (clock : Clock) (m : Mapping) :
  UserBase.email_is_str m ->
  match errors_of default_config m UserCreate.fields with
  | [] => exists inst, UserCreate.model_validate clock m = Valid inst
  | errs => UserCreate.model_validate clock m = ValidationError errs
  end.
Proof.
  intros Hm. apply PydanticFacts.model_validate_aggregates.
  intros f Hf. now apply SchemaFacts.create_fields_no_raise.
Qed.

Example create_reports_both_fields :
  @UserCreate.model_validate Reference.external Reference.clock Examples.two_bad_fields
  = ValidationError
      [mkError "full_name" string_too_short;
       mkError "password"
         (value_error (Text "Password must contain at least one digit."))].
Proof. reflexivity. Qed.

(** C10.  The claim fails on the code where a validator lets an
    exception escape: with [null] for the email, [normalise_email] calls
    [strip] on [None], the [AttributeError] is not a validation error,
    and construction ends with it instead of the composite error of the
    three invalid fields. *)
Theorem create_null_email_escapes `{External} (clock : Clock) :
  UserCreate.model_validate clock Examples.two_bad_fields_null_email
  = Raised (AttributeError "strip").
Proof. reflexivity. Qed.

(* ====================================================================== *)
(** ** Building a Public shape *)
(* ====================================================================== *)

Module ResponseFacts.

Ltac solve_nodup := refine (bool_decide_unpack _ _); vm_compute; exact I.

Lemma response_names_nodup `{External} : NoDup (name <$> UserResponse.fields).
Proof. solve_nodup. Qed.

Lemma response_id_in_fields `{External} : UserResponse.id ∈ UserResponse.fields.
Proof. unfold UserResponse.fields. apply elem_of_cons. now left. Qed.

Lemma fields_no_raise `{External} (cfg : Config) (m : Mapping) (f : FieldInfo) :
  f ∈ UserResponse.fields -> field_raises cfg m f = None.
Proof.
  unfold UserResponse.fields. rewrite !elem_of_cons, elem_of_nil.
  unfold field_raises.
  intros [->|[->|[->|[->|[->|[->|[->|[->|[]]]]]]]]];
    rewrite PydanticFacts.lookup_field_no_alias by reflexivity;
    match goal with |- context [m !! ?k] => destruct (m !! k) as [v|] end;
    try reflexivity;
    match goal with |- context [schema ?f ?x] => destruct (schema f x) eqn:E end;
    try reflexivity; exfalso; revert E; cbn [schema UserResponse.id UserResponse.full_name
      UserResponse.email UserResponse.role UserResponse.is_active UserResponse.avatar_url
      UserResponse.created_at UserResponse.updated_at].
  - apply SchemaFacts.str_schema_no_raise.
  - apply SchemaFacts.str_schema_no_raise.
  - apply SchemaFacts.email_schema_no_raise.
  - apply SchemaFacts.enum_schema_no_raise.
  - apply SchemaFacts.bool_schema_no_raise.
  - apply SchemaFacts.nullable_no_raise. intros e'. apply SchemaFacts.str_schema_no_raise.
  - apply SchemaFacts.datetime_schema_no_raise.
  - apply SchemaFacts.datetime_schema_no_raise.
Qed.

(** What the [id] field does with the value it finds. *)
Lemma id_field `{External} (m : Mapping) :
  lookup_field UserResponse.model_config UserResponse.id m = m !! "id"
  /\ forall v, schema UserResponse.id v
               = match as_str v with Some s => FOk (VStr s) | None => FError string_type end.
Proof. split; [reflexivity|]. intros v. cbn. unfold str_schema. now destruct (as_str v). Qed.

Lemma response_only_id_is_named_id `{External} (f : FieldInfo) :
  f ∈ UserResponse.fields -> name f = "id" -> f = UserResponse.id.
Proof.
  intros Hf Hn. apply (PydanticFacts.same_name_same_field UserResponse.fields);
    auto using response_names_nodup, response_id_in_fields.
Qed.

End ResponseFacts.

(** C2 (as amended).  A Public shape takes any string as its identifier:
    when "id" is a string, valid wire form or not, construction reports
    no error for "id" and, if it succeeds, keeps that string as [id].  It
    fails on "id" only when the key is missing (MissingField) or its
    value is not a string. *)
Theorem public_id_is_any_string `{External} (clock : Clock) (m : Mapping) :
  (forall s, m !! "id" = Some (VStr s) ->
     match UserResponse.model_validate clock m with
     | Valid inst => getattr inst "id" = Some (VStr s)
     | ValidationError errs => forall e, e ∈ errs -> loc e <> "id"
     | Raised _ => False
     end)
  /\ (m !! "id" = None ->
      exists errs, UserResponse.model_validate clock m = ValidationError errs
                   /\ mkError "id" missing ∈ errs)
  /\ (forall v, m !! "id" = Some v -> as_str v = None ->
      exists errs, UserResponse.model_validate clock m = ValidationError errs
                   /\ mkError "id" string_type ∈ errs).
Proof.
  pose proof (PydanticFacts.model_validate_cases UserResponse.model_config clock m
                UserResponse.fields) as Hc.
  pose proof (PydanticFacts.model_validate_aggregates UserResponse.model_config clock m
                UserResponse.fields
                (fun f Hf => ResponseFacts.fields_no_raise _ m f Hf)) as Hagg.
  destruct (ResponseFacts.id_field m) as [Hlook Hschema].
  assert (Herr : forall t, field_error UserResponse.model_config m UserResponse.id = Some t ->
                 exists errs, UserResponse.model_validate clock m = ValidationError errs
                              /\ mkError "id" t ∈ errs).
  { intros t Ht.
    pose proof (PydanticFacts.errors_of_complete UserResponse.model_config m
                  UserResponse.fields UserResponse.id t ResponseFacts.response_id_in_fields Ht) as Hin.
    change (name UserResponse.id) with "id" in Hin.
    destruct (errors_of UserResponse.model_config m UserResponse.fields) as [|e0 errs];
      [inversion Hin|].
    exists (e0 :: errs). split; [exact Hagg | exact Hin]. }
  split; [|split].
  - intros s Hs. unfold UserResponse.model_validate.
    destruct (model_validate UserResponse.model_config UserResponse.fields clock m)
      as [inst|errs|e] eqn:E.
    + destruct (PydanticFacts.valid_has_attr _ _ _ _ _ UserResponse.id E
                  ResponseFacts.response_names_nodup ResponseFacts.response_id_in_fields) as (v & Hv & Hfv).
      change (name UserResponse.id) with "id" in Hv. rewrite Hv.
      unfold field_value in Hfv. rewrite Hlook, Hs, Hschema in Hfv. cbn in Hfv. congruence.
    + destruct Hc as [-> _]. intros e He Hloc.
      apply PydanticFacts.errors_of_sound in He as (f & Hf & Hn & Hfe).
      rewrite Hloc in Hn. symmetry in Hn.
      rewrite (ResponseFacts.response_only_id_is_named_id f Hf Hn) in Hfe.
      unfold field_error in Hfe. rewrite Hlook, Hs, Hschema in Hfe. discriminate.
    + destruct Hc as (f & Hf & Hr).
      rewrite (ResponseFacts.fields_no_raise _ m f Hf) in Hr. discriminate.
  - intros Hnone. apply Herr. unfold field_error. now rewrite Hlook, Hnone.
  - intros v Hv Hs. apply Herr. unfold field_error. now rewrite Hlook, Hv, Hschema, Hs.
Qed.

Lemma public_id_is_any_string_witness :
  Examples.public_jane (VStr "not-an-object-id") !! "id" = Some (VStr "not-an-object-id")
  /\ match @UserResponse.model_validate Reference.external Reference.clock
             (Examples.public_jane (VStr "not-an-object-id")) with
     | Valid inst => getattr inst "id" = Some (VStr "not-an-object-id")
     | ValidationError errs => forall e, e ∈ errs -> loc e <> "id"
     | Raised _ => False
     end.
Proof.
  assert (H0 : Examples.public_jane (VStr "not-an-object-id") !! "id"
               = Some (VStr "not-an-object-id")) by reflexivity.
  split; [exact H0|].
  exact (proj1 (@public_id_is_any_string Reference.external Reference.clock
                  (Examples.public_jane (VStr "not-an-object-id")))
               "not-an-object-id" H0).
Defined.

(** C2, the claim as written fails: a Public shape is built with an
    identifier that is not a valid wire-form identifier. *)
Lemma public_accepts_invalid_identifier :
  Bson.is_valid "not-an-object-id" = false
  /\ @UserResponse.model_validate Reference.external Reference.clock
       (Examples.public_jane (VStr "not-an-object-id"))
     = Valid [("id", VStr "not-an-object-id"); ("full_name", VStr "Jane Doe");
              ("email", VStr "jane.doe@company.com"); ("role", VRole MEMBER);
              ("is_active", VBool true); ("avatar_url", VNone);
              ("created_at", VDatetime 1700000000000000%Z);
              ("updated_at", VDatetime 1700000000000000%Z)].
Proof. split; reflexivity. Qed.

(* ====================================================================== *)
(** ** Building a Stored shape *)
(* ====================================================================== *)

Module StoredFacts.

Lemma stored_names_nodup `{External} : NoDup (name <$> UserInDB.fields).
Proof. ResponseFacts.solve_nodup. Qed.

Lemma stored_id_in_fields `{External} : UserInDB.id ∈ UserInDB.fields.
Proof.
  unfold UserInDB.fields. apply elem_of_app. right. apply elem_of_cons. now left.
Qed.

Lemma hashed_password_in_fields `{External} : UserInDB.hashed_password ∈ UserInDB.fields.
Proof.
  unfold UserInDB.fields. apply elem_of_app. right. rewrite !elem_of_cons. auto.
Qed.

Lemma stored_only_id_is_named_id `{External} (f : FieldInfo) :
  f ∈ UserInDB.fields -> name f = "id" -> f = UserInDB.id.
Proof.
  intros Hf Hn. apply (PydanticFacts.same_name_same_field UserInDB.fields);
    auto using stored_names_nodup, stored_id_in_fields.
Qed.

(** The identifier is looked up under its alias, then under its name. *)
Lemma id_lookup (m : Mapping) :
  lookup_field UserInDB.model_config UserInDB.id m
  = match m !! "_id" with Some v => Some v | None => m !! "id" end.
Proof. reflexivity. Qed.

Lemma role_value_not_valid (r : UserRole) : Bson.is_valid (role_value r) = false.
Proof. destruct r; reflexivity. Qed.

(** The [id] field gives a value for [None] only, and gives [None]. *)
Lemma id_schema_ok (x v : PyValue) :
  schema UserInDB.id x = FOk v -> x = VNone /\ v = VNone.
Proof.
  rewrite SchemaFacts.id_field_schema. destruct x; try discriminate.
  intros [= <-]. auto.
Qed.

Lemma id_value_none (clock : Clock) (m : Mapping) (v : PyValue) :
  field_value UserInDB.model_config clock m UserInDB.id v -> v = VNone.
Proof.
  unfold field_value. destruct (lookup_field _ UserInDB.id m) as [x|].
  - intros Hx. now apply id_schema_ok in Hx.
  - cbn. auto.
Qed.

Lemma id_value (clock : Clock) (m : Mapping) (v : PyValue) :
  field_value UserInDB.model_config clock m UserInDB.id v ->
  v = VNone
  \/ exists s, v = VStr s /\ (Bson.is_valid s = true \/ exists o, s = Bson.str o).
Proof. intros Hv. left. exact (id_value_none clock m v Hv). Qed.

(** The identifier of a Stored shape that is built. *)
Lemma built_id `{External} (clock : Clock) (m : Mapping) (inst : Instance) :
  UserInDB.model_validate clock m = Valid inst ->
  exists v, getattr inst "id" = Some v
            /\ field_value UserInDB.model_config clock m UserInDB.id v
            /\ (v = VNone
                \/ exists s, v = VStr s
                             /\ (Bson.is_valid s = true \/ exists o, s = Bson.str o)).
Proof.
  intros Hv.
  destruct (PydanticFacts.valid_has_attr _ _ _ _ _ UserInDB.id Hv
              stored_names_nodup stored_id_in_fields) as (v & Hg & Hfv).
  exists v. split; [exact Hg|]. split; [exact Hfv|]. exact (id_value clock m v Hfv).
Qed.

(** The attributes of a Stored shape have the types of its fields. *)
Lemma stored_attribute_types `{External} (clock : Clock) (m : Mapping) (stored : Instance) :
  UserInDB.model_validate clock m = Valid stored ->
  (exists s, getattr stored "full_name" = Some (VStr s))
  /\ (exists e s, getattr stored "email" = Some (VStr s) /\ validate_email e = Some s)
  /\ (exists r, getattr stored "role" = Some (VRole r))
  /\ (exists b, getattr stored "is_active" = Some (VBool b))
  /\ (exists v, getattr stored "avatar_url" = Some v /\ (v = VNone \/ exists s, v = VStr s))
  /\ (exists t, getattr stored "created_at" = Some (VDatetime t))
  /\ (exists t, getattr stored "updated_at" = Some (VDatetime t)).
Proof.
  intros Hv. unfold UserInDB.model_validate in Hv.
  assert (Hattr : forall f, f ∈ UserInDB.fields ->
            exists v, getattr stored (name f) = Some v
                      /\ field_value UserInDB.model_config clock m f v).
  { intros f Hf. exact (PydanticFacts.valid_has_attr _ _ _ _ _ f Hv stored_names_nodup Hf). }
  assert (Hin : forall f, f ∈ UserBase.fields ++ [UserInDB.id; UserInDB.hashed_password;
                                                    UserInDB.created_at; UserInDB.updated_at] ->
                f ∈ UserInDB.fields) by auto.
  unfold UserBase.fields in Hin.
  repeat split.
  - destruct (Hattr UserBase.full_name) as (v & Hg & Hfv);
      [apply Hin; rewrite elem_of_app, !elem_of_cons; auto 10|].
    change (name UserBase.full_name) with "full_name" in Hg. rewrite Hg.
    unfold field_value in Hfv. destruct (lookup_field _ _ m) as [x|]; [|contradiction].
    destruct (SchemaFacts.str_schema_total (Some 2) (Some 100) x)
      as [(s & _ & Hs)|(t & Ht & _)]; cbn [schema UserBase.full_name] in Hfv;
      rewrite ?Hs, ?Ht in Hfv; [|discriminate].
    injection Hfv as <-. eauto.
  - destruct (Hattr UserBase.email) as (v & Hg & Hfv);
      [apply Hin; rewrite elem_of_app, !elem_of_cons; auto 10|].
    change (name UserBase.email) with "email" in Hg. rewrite Hg.
    unfold field_value in Hfv. destruct (lookup_field _ _ m) as [x|]; [|contradiction].
    revert Hfv. cbn [schema UserBase.email].
    unfold function_before, UserBase.normalise_email, email_schema.
    destruct (as_str x) as [s0|]; cbn; [|discriminate].
    destruct (validate_email _) as [s'|] eqn:E; [|discriminate].
    intros [= <-]. eauto.
  - destruct (Hattr UserBase.role) as (v & Hg & Hfv);
      [apply Hin; rewrite elem_of_app, !elem_of_cons; auto 10|].
    change (name UserBase.role) with "role" in Hg. rewrite Hg.
    unfold field_value in Hfv. destruct (lookup_field _ _ m) as [x|].
    + revert Hfv. cbn [schema UserBase.role]. unfold enum_schema.
      destruct x; cbn [as_str]; try discriminate;
        try (destruct (role_of_value _); [|discriminate]); intros [= <-]; eauto.
    + cbn in Hfv. subst v. eauto.
  - destruct (Hattr UserBase.is_active) as (v & Hg & Hfv);
      [apply Hin; rewrite elem_of_app, !elem_of_cons; auto 10|].
    change (name UserBase.is_active) with "is_active" in Hg. rewrite Hg.
    unfold field_value in Hfv. destruct (lookup_field _ _ m) as [x|].
    + revert Hfv. cbn [schema UserBase.is_active]. unfold bool_schema.
      destruct x; cbn [as_str]; try discriminate;
        try (destruct (str_as_bool _); [|discriminate]); intros [= <-]; eauto.
    + cbn in Hfv. subst v. eauto.
  - destruct (Hattr UserBase.avatar_url) as (v & Hg & Hfv);
      [apply Hin; rewrite elem_of_app, !elem_of_cons; auto 10|].
    change (name UserBase.avatar_url) with "avatar_url" in Hg. rewrite Hg.
    exists v. split; [reflexivity|].
    unfold field_value in Hfv. destruct (lookup_field _ _ m) as [x|].
    + revert Hfv. cbn [schema UserBase.avatar_url]. unfold nullable.
      destruct (SchemaFacts.str_schema_total None None x) as [(s & _ & Hs)|(t & Ht & _)];
        destruct x; rewrite ?Hs, ?Ht; try discriminate; intros [= <-]; eauto.
    + cbn in Hfv. now left.
  - destruct (Hattr UserInDB.created_at) as (v & Hg & Hfv);
      [apply Hin; rewrite elem_of_app, !elem_of_cons; auto 10|].
    change (name UserInDB.created_at) with "created_at" in Hg. rewrite Hg.
    unfold field_value in Hfv. destruct (lookup_field _ _ m) as [x|].
    + revert Hfv. cbn [schema UserInDB.created_at]. unfold datetime_schema.
      destruct x; cbn [as_str]; try discriminate;
        try (destruct (str_as_datetime _); [|discriminate]); intros [= <-]; eauto.
    + cbn in Hfv. destruct Hfv as [k ->]. eauto.
  - destruct (Hattr UserInDB.updated_at) as (v & Hg & Hfv);
      [apply Hin; rewrite elem_of_app, !elem_of_cons; auto 10|].
    change (name UserInDB.updated_at) with "updated_at" in Hg. rewrite Hg.
    unfold field_value in Hfv. destruct (lookup_field _ _ m) as [x|].
    + revert Hfv. cbn [schema UserInDB.updated_at]. unfold datetime_schema.
      destruct x; cbn [as_str]; try discriminate;
        try (destruct (str_as_datetime _); [|discriminate]); intros [= <-]; eauto.
    + cbn in Hfv. destruct Hfv as [k ->]. eauto.
Qed.


End StoredFacts.

(** C9 (as amended).  The identifier is an optional field of the Stored
    shape, [None] by default: when the mapping supplies no identifier
    (neither "_id" nor "id") construction reports no error for it, in
    particular no MissingField, and a shape that is built has [id = None].
    Every Stored shape that is built carries [None] or a validated
    identifier in string form. *)
Theorem stored_identifier_is_optional `{External} (clock : Clock) (m : Mapping) :
  (m !! "_id" = None -> m !! "id" = None ->
   match UserInDB.model_validate clock m with
   | Valid inst => getattr inst "id" = Some VNone
   | ValidationError errs => forall e, e ∈ errs -> loc e <> "id"
   | Raised _ => True
   end)
  /\ (forall inst, UserInDB.model_validate clock m = Valid inst ->
      getattr inst "id" = Some VNone
      \/ exists s, getattr inst "id" = Some (VStr s)
                   /\ (Bson.is_valid s = true \/ exists o, s = Bson.str o)).
Proof.
  pose proof (PydanticFacts.model_validate_cases UserInDB.model_config clock m
                UserInDB.fields) as Hc.
  pose proof (StoredFacts.built_id clock m) as Hid.
  unfold UserInDB.model_validate in *.
  destruct (model_validate UserInDB.model_config UserInDB.fields clock m)
    as [inst|errs|e] eqn:E.
  - destruct (Hid inst eq_refl) as (v & Hv & Hfv & Hcases). split.
    + intros H1 H2. rewrite Hv. unfold field_value in Hfv.
      rewrite StoredFacts.id_lookup, H1, H2 in Hfv. cbn in Hfv. now subst v.
    + intros inst' [= <-]. rewrite Hv.
      destruct Hcases as [->|(s & -> & Hs)]; eauto.
  - split; [|discriminate]. intros H1 H2 e He Hloc. destruct Hc as [-> _].
    apply PydanticFacts.errors_of_sound in He as (f & Hf & Hn & Hfe).
    rewrite Hloc in Hn. symmetry in Hn.
    rewrite (StoredFacts.stored_only_id_is_named_id f Hf Hn) in Hfe.
    unfold field_error in Hfe. rewrite StoredFacts.id_lookup, H1, H2 in Hfe. discriminate.
  - split; [auto | discriminate].
Qed.

Lemma stored_identifier_is_optional_witness :
  Examples.stored_jane !! "_id" = None
  /\ Examples.stored_jane !! "id" = None
  /\ match @UserInDB.model_validate Reference.external Reference.clock Examples.stored_jane with
     | Valid inst => getattr inst "id" = Some VNone
     | ValidationError errs => forall e, e ∈ errs -> loc e <> "id"
     | Raised _ => True
     end.
Proof.
  assert (H1 : Examples.stored_jane !! "_id" = None) by reflexivity.
  assert (H2 : Examples.stored_jane !! "id" = None) by reflexivity.
  split; [exact H1|]. split; [exact H2|].
  exact (proj1 (@stored_identifier_is_optional Reference.external Reference.clock
                  Examples.stored_jane) H1 H2).
Defined.

(** C9, the claim as written fails: a Stored shape is built from a
    mapping without identifier, and its [id] is [None]. *)
Lemma stored_without_identifier_is_built :
  Examples.stored_jane !! "_id" = None
  /\ Examples.stored_jane !! "id" = None
  /\ @UserInDB.model_validate Reference.external Reference.clock Examples.stored_jane
     = Valid [("full_name", VStr "Jane Doe"); ("email", VStr "jane.doe@company.com");
              ("role", VRole INTERN); ("is_active", VBool true); ("avatar_url", VNone);
              ("id", VNone);
              ("hashed_password", VStr "$2b$12$abcdefghijklmnopqrstuv");
              ("created_at", VDatetime 1700000000000000%Z);
              ("updated_at", VDatetime 1700000000000001%Z)].
Proof. repeat split; reflexivity. Qed.

(* ====================================================================== *)
(** ** From the Stored shape to the Public shape *)
(* ====================================================================== *)



(* ====================================================================== *)
(** ** The Update shape against the Create shape *)
(* ====================================================================== *)

(** A value other than [None] given to Update for full_name, role or
    is_active, and any value given for avatar_url, is validated by the
    rule Create applies to that field.  The email is not: the validator
    [normalise_email] belongs to [UserBase], which Update does not derive
    from, so the format rule receives the email of an Update as it was
    supplied, where Create gives it the trimmed, lower-case form.  The
    two fields agree on an email that is already normalised. *)
Lemma update_validates_like_create_but_email `{External} (v : PyValue) :
  (v <> VNone ->
   schema UserUpdate.full_name v = schema UserBase.full_name v
   /\ schema UserUpdate.role v = schema UserBase.role v
   /\ schema UserUpdate.is_active v = schema UserBase.is_active v)
  /\ schema UserUpdate.avatar_url v = schema UserBase.avatar_url v
  /\ (forall e, v = VStr e ->
      schema UserUpdate.email v = email_schema (VStr e)
      /\ schema UserBase.email v = email_schema (VStr (PyStr.lower (PyStr.strip e)))
      /\ (PyStr.lower (PyStr.strip e) = e ->
          schema UserUpdate.email v = schema UserBase.email v))
  /\ UserBase.full_name ∈ UserCreate.fields
  /\ UserBase.email ∈ UserCreate.fields
  /\ UserBase.role ∈ UserCreate.fields
  /\ UserBase.is_active ∈ UserCreate.fields
  /\ UserBase.avatar_url ∈ UserCreate.fields.
Proof.
  split; [|split; [|split]].
  - intros Hv. destruct v; try contradiction; repeat split; reflexivity.
  - reflexivity.
  - intros e ->. split; [reflexivity|]. split; [apply SchemaFacts.base_email_on_str|].
    intros He. rewrite SchemaFacts.base_email_on_str, He. reflexivity.
  - unfold UserCreate.fields, UserBase.fields. rewrite !elem_of_app, !elem_of_cons.
    repeat split; left; auto 10.
Qed.

(** C3.  The claim fails on the code: Update does not normalise the
    email.  The same raw email is accepted by Create and by Update;
    Create stores it in lower case, Update stores it with its capitals. *)
Theorem update_keeps_email_capitals :
  @UserCreate.model_validate Reference.external Reference.clock Examples.jane_capitals
  = Valid [("full_name", VStr "Jane Doe"); ("email", VStr "jane.doe@company.com");
           ("role", VRole INTERN); ("is_active", VBool true);
           ("avatar_url", VNone); ("password", VStr "Passw0rdX")]
  /\ @UserUpdate.model_validate Reference.external Reference.clock
       Examples.update_email_capitals
     = Valid [("full_name", VNone); ("email", VStr "Jane.Doe@company.com");
              ("role", VNone); ("is_active", VNone); ("avatar_url", VNone)]
  /\ Examples.jane_capitals !! "email" = Examples.update_email_capitals !! "email"
  /\ VStr "jane.doe@company.com" <> VStr "Jane.Doe@company.com".
Proof. repeat split; try reflexivity. discriminate. Qed.

(* ====================================================================== *)
(** ** Further properties of the identifier helper and the validators *)
(* ====================================================================== *)

Module ValidatorFacts.
Import PyStr.

Lemma chars_append (a b : string) : chars (String.append a b) = chars a ++ chars b.
Proof.
  unfold chars. induction a as [|c a IH]; [reflexivity|].
  change (String.append (String c a) b) with (String c (String.append a b)).
  cbn [list_ascii_of_string]. now rewrite IH.
Qed.

Lemma lstrip_spaces (a l : list ascii) :
  forallb isspace a = true -> lstrip_chars (a ++ l) = lstrip_chars l.
Proof.
  induction a as [|c a IH]; [reflexivity|]. cbn [forallb app lstrip_chars].
  intros H. apply andb_prop in H as [-> Ha]. auto.
Qed.

Lemma lstrip_app (l b : list ascii) :
  lstrip_chars l <> [] -> lstrip_chars (l ++ b) = lstrip_chars l ++ b.
Proof.
  induction l as [|c l IH]; [intros H; now destruct H|]. cbn [app lstrip_chars].
  destruct (isspace c); auto.
Qed.

Lemma lstrip_all_spaces (l : list ascii) :
  lstrip_chars l = [] -> forallb isspace l = true.
Proof.
  induction l as [|c l IH]; [reflexivity|]. cbn [lstrip_chars forallb].
  destruct (isspace c); [auto|discriminate].
Qed.

Lemma lstrip_of_spaces (l : list ascii) :
  forallb isspace l = true -> lstrip_chars l = [].
Proof.
  intros H. rewrite <- (app_nil_r l). now rewrite lstrip_spaces.
Qed.

Lemma forallb_rev (p : ascii -> bool) (l : list ascii) :
  forallb p (rev l) = forallb p l.
Proof.
  induction l as [|c l IH]; [reflexivity|]. cbn [rev forallb].
  rewrite forallb_app, IH. cbn. now rewrite andb_true_r, andb_comm.
Qed.

Lemma rstrip_spaces (l b : list ascii) :
  forallb isspace b = true -> rstrip_chars (l ++ b) = rstrip_chars l.
Proof.
  intros H. unfold rstrip_chars. rewrite rev_app_distr, lstrip_spaces; [reflexivity|].
  now rewrite forallb_rev.
Qed.

(** Whitespace around a text does not survive [strip]. *)
Lemma strip_chars_padding (a s b : list ascii) :
  forallb isspace a = true -> forallb isspace b = true ->
  strip_chars (a ++ s ++ b) = strip_chars s.
Proof.
  intros Ha Hb. unfold strip_chars. rewrite (lstrip_spaces a _ Ha).
  destruct (lstrip_chars s) as [|c l] eqn:E.
  - rewrite lstrip_spaces by now apply lstrip_all_spaces.
    now rewrite (lstrip_of_spaces b Hb).
  - rewrite lstrip_app by congruence. rewrite E. now apply rstrip_spaces.
Qed.

Lemma lstrip_map_lower (l : list ascii) :
  lstrip_chars (map lower_char l) = map lower_char (lstrip_chars l).
Proof.
  induction l as [|c l IH]; [reflexivity|]. cbn [map lstrip_chars].
  rewrite PyStrFacts.isspace_lower_char. destruct (isspace c); auto.
Qed.

Lemma strip_map_lower (l : list ascii) :
  strip_chars (map lower_char l) = map lower_char (strip_chars l).
Proof.
  unfold strip_chars, rstrip_chars.
  now rewrite lstrip_map_lower, <- map_rev, lstrip_map_lower, map_rev.
Qed.

Lemma role_of_value_spec (s : string) (r : UserRole) :
  role_of_value s = Some r <-> role_value r = s.
Proof.
  unfold role_of_value. split.
  - intros H. apply find_some in H as [_ H]. now apply String.eqb_eq in H.
  - intros <-. destruct r; reflexivity.
Qed.

Lemma role_of_value_none (s : string) :
  role_of_value s = None <-> ~ In s (map role_value all_roles).
Proof.
  split.
  - intros H Hin. apply in_map_iff in Hin as (r & Hr & _).
    apply role_of_value_spec in Hr. congruence.
  - intros H. destruct (role_of_value s) as [r|] eqn:E; [|reflexivity].
    exfalso. apply H. apply role_of_value_spec in E. subst s.
    apply in_map. destruct r; cbn; auto 10.
Qed.

End ValidatorFacts.

(** X1.  [PyObjectId.validate] is idempotent: whatever it accepts (the
    twelve bytes of an ObjectId, or a valid string) it returns as a
    valid identifier string, and validating that result again returns
    it unchanged. *)
Theorem validate_is_idempotent (v w : PyValue) :
  (forall o, v = VObjectId o -> Bson.wf o) ->
  PyObjectId.validate v = Ok w ->
  (exists s, w = VStr s /\ Bson.is_valid s = true)
  /\ PyObjectId.validate w = Ok w.
Proof.
  intros Hwf. unfold PyObjectId.validate at 1.
  assert (Hstr : forall s, Bson.is_valid s = true ->
                 (exists s', VStr s = VStr s' /\ Bson.is_valid s' = true)
                 /\ PyObjectId.validate (VStr s) = Ok (VStr s)).
  { intros s Hs. split; [eauto|]. unfold PyObjectId.validate. cbn [as_str]. now rewrite Hs. }
  destruct v as [|b|s|r|o|t]; cbn [as_str]; try discriminate.
  - destruct (Bson.is_valid s) eqn:E; [|discriminate]. intros [= <-]. now apply Hstr.
  - rewrite StoredFacts.role_value_not_valid. discriminate.
  - intros [= <-]. apply Hstr, BsonFacts.str_is_valid, Hwf. reflexivity.
Qed.

Lemma validate_is_idempotent_witness :
  (forall o, VObjectId Examples.oid = VObjectId o -> Bson.wf o)
  /\ PyObjectId.validate (VStr "000102030405a6b7c8d9eaff")
     = Ok (VStr "000102030405a6b7c8d9eaff").
Proof.
  assert (H0 : forall o, VObjectId Examples.oid = VObjectId o -> Bson.wf o)
    by (intros o [= <-]; reflexivity).
  split; [exact H0|].
  exact (proj2 (validate_is_idempotent (VObjectId Examples.oid)
                  (VStr "000102030405a6b7c8d9eaff") H0 eq_refl)).
Defined.

(** X2.  Called with a value, [PyObjectId.validate] fails exactly on a
    value that is neither an ObjectId nor a valid identifier string
    ([None], a boolean, a datetime, any other string), and then the
    exception is always the [ValueError] that carries the offending
    value. *)
Theorem validate_fails_with_value_error (v : PyValue) (e : Exception) :
  PyObjectId.validate v = Raise e <->
  e = ValueError (Invalid_ObjectId v)
  /\ (forall o, v <> VObjectId o)
  /\ (forall s, as_str v = Some s -> Bson.is_valid s = false).
Proof.
  unfold PyObjectId.validate.
  destruct v as [|b|s|r|o|t]; cbn [as_str];
    try (split; [intros [= <-]; repeat split; discriminate | intros (-> & _); reflexivity]).
  - destruct (Bson.is_valid s) eqn:E.
    + split; [discriminate|]. intros (_ & _ & H). specialize (H s eq_refl). congruence.
    + split; [intros [= <-]; repeat split; [discriminate|congruence] | intros (-> & _); reflexivity].
  - rewrite StoredFacts.role_value_not_valid.
    split; [intros [= <-]; repeat split; [discriminate|] | intros (-> & _); reflexivity].
    intros s [= <-]. apply StoredFacts.role_value_not_valid.
  - split; [discriminate|]. intros (_ & H & _). now specialize (H o).
Qed.

Lemma validate_fails_with_value_error_witness :
  PyObjectId.validate (VBool true) = Raise (ValueError (Invalid_ObjectId (VBool true))).
Proof.
  apply (proj2 (validate_fails_with_value_error (VBool true)
                  (ValueError (Invalid_ObjectId (VBool true))))).
  repeat split; discriminate.
Defined.

(** X3.  The role field takes a string exactly when it is the value of
    one of the five roles, and gives the member with that value; any
    other string is an [enum] error; a member is taken as it is.  The
    values of the five members are pairwise different. *)
Theorem role_field_accepts_the_five_values (s : string) (r : UserRole) :
  (enum_schema (VStr s) = FOk (VRole r) <-> role_value r = s)
  /\ (enum_schema (VStr s) = FError enum
      <-> ~ In s ["admin"; "project_lead"; "member"; "intern"; "viewer"])
  /\ enum_schema (VRole r) = FOk (VRole r)
  /\ (forall r', role_value r = role_value r' -> r = r').
Proof.
  unfold enum_schema. cbn [as_str]. split; [|split; [|split]].
  - rewrite <- ValidatorFacts.role_of_value_spec.
    destruct (role_of_value s) as [r'|]; split; congruence.
  - change ["admin"; "project_lead"; "member"; "intern"; "viewer"]
      with (map role_value all_roles).
    rewrite <- ValidatorFacts.role_of_value_none.
    destruct (role_of_value s) as [r'|]; split; congruence.
  - reflexivity.
  - intros r' H. destruct r, r'; try reflexivity; discriminate H.
Qed.

Lemma role_field_accepts_the_five_values_witness :
  enum_schema (VStr "project_lead") = FOk (VRole PROJECT_LEAD).
Proof.
  apply (proj1 (role_field_accepts_the_five_values "project_lead" PROJECT_LEAD)).
  reflexivity.
Defined.

(** X4.  The full name is accepted, unchanged, exactly when it has
    between 2 and 100 characters; a shorter one is [string_too_short], a
    longer one [string_too_long].  Update applies the same bounds to a
    name it is given, and unlike Create also takes [None]. *)
Theorem full_name_length_bounds (s : string) :
  (schema UserBase.full_name (VStr s) = FOk (VStr s)
   <-> 2 <= PyStr.len s /\ PyStr.len s <= 100)
  /\ (PyStr.len s < 2 -> schema UserBase.full_name (VStr s) = FError string_too_short)
  /\ (100 < PyStr.len s -> schema UserBase.full_name (VStr s) = FError string_too_long)
  /\ schema UserUpdate.full_name (VStr s) = schema UserBase.full_name (VStr s)
  /\ schema UserBase.full_name VNone = FError string_type
  /\ schema UserUpdate.full_name VNone = FOk VNone.
Proof.
  cbn [schema UserBase.full_name UserUpdate.full_name nullable]. unfold str_schema.
  cbn [as_str].
  destruct (Nat.ltb_spec (PyStr.len s) 2) as [H1|H1];
    destruct (Nat.ltb_spec 100 (PyStr.len s)) as [H2|H2];
    repeat split; intros; try reflexivity; try lia; try discriminate.
Qed.

Lemma full_name_length_bounds_witness :
  (2 <= PyStr.len "Jo" /\ PyStr.len "Jo" <= 100)
  /\ schema UserBase.full_name (VStr "Jo") = FOk (VStr "Jo").
Proof.
  assert (H0 : 2 <= PyStr.len "Jo" /\ PyStr.len "Jo" <= 100) by (vm_compute; lia).
  split; [exact H0|].
  exact (proj2 (proj1 (full_name_length_bounds "Jo")) H0).
Defined.

(** X5.  The checks of the password field run in a fixed order and stop
    at the first that fails: a password shorter than eight characters is
    [string_too_short] whatever it contains; one of eight or more without
    a digit gets the digit message, also when it has no uppercase letter
    either; the uppercase message is given only to a password that has a
    digit. *)
Theorem password_checks_in_order (p : string) :
  (PyStr.len p < 8 -> schema UserCreate.password (VStr p) = FError string_too_short)
  /\ (8 <= PyStr.len p -> PyStr.any PyStr.isdigit p = false ->
      schema UserCreate.password (VStr p)
      = FError (value_error (Text "Password must contain at least one digit.")))
  /\ (8 <= PyStr.len p -> PyStr.any PyStr.isdigit p = true ->
      PyStr.any PyStr.isupper p = false ->
      schema UserCreate.password (VStr p)
      = FError (value_error (Text "Password must contain at least one uppercase letter."))).
Proof.
  cbn [schema UserCreate.password]. unfold function_after_str, str_schema.
  cbn [as_str]. unfold UserCreate.password_strength.
  destruct (Nat.ltb_spec (PyStr.len p) 8) as [H1|H1]; repeat split; intros;
    try lia; try reflexivity.
  - rewrite H0. reflexivity.
  - rewrite H0, H2. reflexivity.
Qed.

Lemma password_checks_in_order_witness :
  8 <= PyStr.len "weakpassword"
  /\ PyStr.any PyStr.isdigit "weakpassword" = false
  /\ schema UserCreate.password (VStr "weakpassword")
     = FError (value_error (Text "Password must contain at least one digit.")).
Proof.
  assert (H1 : 8 <= PyStr.len "weakpassword") by (vm_compute; lia).
  assert (H2 : PyStr.any PyStr.isdigit "weakpassword" = false) by reflexivity.
  split; [exact H1|]. split; [exact H2|].
  exact (proj1 (proj2 (password_checks_in_order "weakpassword")) H1 H2).
Defined.

(** X6.  Email normalisation sends to the same result two emails that
    differ only in whitespace around them or in the case of their
    letters: padding a string with whitespace, or lower-casing it first,
    does not change what [normalise_email] returns. *)
Theorem normalise_email_ignores_padding_and_case (a s b : string) :
  PyStr.all PyStr.isspace a = true -> PyStr.all PyStr.isspace b = true ->
  UserBase.normalise_email (VStr (String.append a (String.append s b)))
  = UserBase.normalise_email (VStr s)
  /\ UserBase.normalise_email (VStr (PyStr.lower s)) = UserBase.normalise_email (VStr s).
Proof.
  intros Ha Hb. unfold UserBase.normalise_email. cbn [as_str]. split; do 2 f_equal.
  - unfold PyStr.strip. rewrite !ValidatorFacts.chars_append.
    now rewrite (ValidatorFacts.strip_chars_padding _ _ _ Ha Hb).
  - unfold PyStr.lower, PyStr.strip. rewrite !PyStrFacts.chars_of_chars.
    now rewrite ValidatorFacts.strip_map_lower, PyStrFacts.map_lower_idem.
Qed.

Lemma normalise_email_ignores_padding_and_case_witness :
  PyStr.all PyStr.isspace "  " = true
  /\ PyStr.all PyStr.isspace " " = true
  /\ UserBase.normalise_email (VStr (String.append "  " (String.append "Jane@X.org" " ")))
     = UserBase.normalise_email (VStr "Jane@X.org").
Proof.
  assert (Ha : PyStr.all PyStr.isspace "  " = true) by reflexivity.
  assert (Hb : PyStr.all PyStr.isspace " " = true) by reflexivity.
  split; [exact Ha|]. split; [exact Hb|].
  exact (proj1 (normalise_email_ignores_padding_and_case "  " "Jane@X.org" " " Ha Hb)).
Defined.

(* ====================================================================== *)
(** ** Further properties of model validation *)
(* ====================================================================== *)

Module EngineFacts.

(** Two mappings in which every field finds the same value give the same
    outcome. *)
Lemma validate_fields_same_lookups (cfg : Config) (clock : Clock) (m1 m2 : Mapping)
    (fs : list FieldInfo) :
  Forall (fun f => lookup_field cfg f m1 = lookup_field cfg f m2) fs ->
  forall reads,
    validate_fields cfg clock m1 reads fs = validate_fields cfg clock m2 reads fs.
Proof.
  induction 1 as [|f fs Hf _ IH]; intros reads; cbn [validate_fields]; [reflexivity|].
  unfold field_result. rewrite Hf.
  destruct (match lookup_field cfg f m2 with Some _ => _ | None => _ end) as [[x|t|e] reads'];
    try rewrite IH; reflexivity.
Qed.

Lemma model_validate_same_lookups (cfg : Config) (clock : Clock) (m1 m2 : Mapping)
    (fs : list FieldInfo) :
  Forall (fun f => lookup_field cfg f m1 = lookup_field cfg f m2) fs ->
  model_validate cfg fs clock m1 = model_validate cfg fs clock m2.
Proof.
  intros H. unfold model_validate. now rewrite (validate_fields_same_lookups _ _ _ _ _ H).
Qed.

(** When some field raises, an exception escapes. *)
Lemma raising_field_escapes (cfg : Config) (clock : Clock) (m : Mapping)
    (fs : list FieldInfo) (f : FieldInfo) :
  f ∈ fs -> field_raises cfg m f <> None ->
  forall reads, exists e, validate_fields cfg clock m reads fs = Escaped e.
Proof.
  induction fs as [|g fs IH]; [intros Hf; inversion Hf|].
  intros Hf Hr reads. cbn [validate_fields].
  pose proof (PydanticFacts.field_result_cases cfg clock m reads g) as Hg.
  destruct (field_result cfg clock m reads g) as [[x|t|e] reads'].
  - destruct Hg as (_ & Hng & _). apply elem_of_cons in Hf as [->|Hf]; [contradiction|].
    destruct (IH Hf Hr reads') as [e ->]. eauto.
  - destruct Hg as (_ & Hng). apply elem_of_cons in Hf as [->|Hf]; [contradiction|].
    destruct (IH Hf Hr reads') as [e ->]. eauto.
  - eauto.
Qed.

(** The exception that escapes is that of the first field that raises. *)
Lemma first_raising_field_escapes (cfg : Config) (clock : Clock) (m : Mapping)
    (before after : list FieldInfo) (f : FieldInfo) (e : Exception) :
  (forall g, g ∈ before -> field_raises cfg m g = None) ->
  field_raises cfg m f = Some e ->
  forall reads, validate_fields cfg clock m reads (before ++ f :: after) = Escaped e.
Proof.
  induction before as [|g before IH]; intros Hno Hf reads; cbn [app validate_fields].
  - pose proof (PydanticFacts.field_result_cases cfg clock m reads f) as Hc.
    destruct (field_result cfg clock m reads f) as [[x|t|e'] reads'].
    + destruct Hc as (_ & Hn & _). congruence.
    + destruct Hc as (_ & Hn). congruence.
    + congruence.
  - pose proof (PydanticFacts.field_result_cases cfg clock m reads g) as Hc.
    assert (Hg : field_raises cfg m g = None) by (apply Hno; left).
    assert (Hrest : forall g', g' ∈ before -> field_raises cfg m g' = None)
      by (intros g' Hg'; apply Hno; now right).
    destruct (field_result cfg clock m reads g) as [[x|t|e'] reads'].
    + now rewrite (IH Hrest Hf reads').
    + now rewrite (IH Hrest Hf reads').
    + congruence.
Qed.

Lemma raising_field_raised (cfg : Config) (clock : Clock) (m : Mapping)
    (fs : list FieldInfo) (f : FieldInfo) :
  f ∈ fs -> field_raises cfg m f <> None ->
  exists e, model_validate cfg fs clock m = Raised e.
Proof.
  intros Hf Hr. unfold model_validate.
  destruct (raising_field_escapes cfg clock m fs f Hf Hr 0) as [e ->]. eauto.
Qed.

(** A required field that the mapping does not give is reported, when
    no exception escapes. *)
Lemma required_field_reported (cfg : Config) (clock : Clock) (m : Mapping)
    (fs : list FieldInfo) (f : FieldInfo) :
  (forall g, g ∈ fs -> field_raises cfg m g = None) ->
  f ∈ fs -> lookup_field cfg f m = None -> default f = Required ->
  exists errs, model_validate cfg fs clock m = ValidationError errs
               /\ mkError (name f) missing ∈ errs.
Proof.
  intros Hno Hf Hl Hd.
  assert (Hin : mkError (name f) missing ∈ errors_of cfg m fs).
  { apply PydanticFacts.errors_of_complete; [exact Hf|].
    unfold field_error. now rewrite Hl, Hd. }
  pose proof (PydanticFacts.model_validate_aggregates cfg clock m fs Hno) as Hagg.
  destruct (errors_of cfg m fs) as [|e0 errs]; [inversion Hin|].
  exists (e0 :: errs). split; [exact Hagg | exact Hin].
Qed.

(** The first field of a run without error lines. *)
Lemma collected_cons (cfg : Config) (clock : Clock) (m : Mapping) (reads : nat)
    (f : FieldInfo) (fs : list FieldInfo) (vals : list (string * PyValue)) :
  validate_fields cfg clock m reads (f :: fs) = Collected vals [] ->
  exists v reads' vals',
    field_result cfg clock m reads f = (FOk v, reads')
    /\ vals = (name f, v) :: vals'
    /\ validate_fields cfg clock m reads' fs = Collected vals' [].
Proof.
  cbn [validate_fields].
  destruct (field_result cfg clock m reads f) as [[v|t|e] reads']; [| |discriminate].
  - destruct (validate_fields cfg clock m reads' fs) as [vals' errs'|] eqn:E; [|discriminate].
    intros [= <- ->]. eauto 6.
  - destruct (validate_fields cfg clock m reads' fs) as [vals' errs'|]; discriminate.
Qed.

(** Only a field with the clock as default reads the clock. *)
Lemma field_result_reads (cfg : Config) (clock : Clock) (m : Mapping) (reads : nat)
    (f : FieldInfo) :
  default f <> DefaultFactory_utcnow ->
  snd (field_result cfg clock m reads f) = reads.
Proof.
  unfold field_result. destruct (lookup_field cfg f m); [reflexivity|].
  destruct (default f); [reflexivity|reflexivity|congruence].
Qed.

End EngineFacts.

Module ClassFacts.

Lemma email_field_raises `{External} (cfg : Config) (m : Mapping) (v : PyValue) :
  m !! "email" = Some v -> as_str v = None ->
  field_raises cfg m UserBase.email = Some (AttributeError "strip").
Proof.
  intros Hv Hs. unfold field_raises.
  rewrite PydanticFacts.lookup_field_no_alias by reflexivity.
  change (name UserBase.email) with "email". rewrite Hv.
  destruct (schema UserBase.email v) eqn:E;
    try (exfalso; revert E; cbn [schema UserBase.email];
         unfold function_before, UserBase.normalise_email; rewrite Hs; cbn; discriminate).
  f_equal. now apply SchemaFacts.base_email_raises in E as [_ ->].
Qed.

Lemma email_in_create `{External} : UserBase.email ∈ UserCreate.fields.
Proof. unfold UserCreate.fields, UserBase.fields. rewrite elem_of_app, !elem_of_cons. auto. Qed.

Lemma email_in_stored `{External} : UserBase.email ∈ UserInDB.fields.
Proof. unfold UserInDB.fields, UserBase.fields. rewrite elem_of_app, !elem_of_cons. auto. Qed.

Lemma create_raise_source `{External} (m : Mapping) (f : FieldInfo) (e : Exception) :
  f ∈ UserCreate.fields -> field_raises default_config m f = Some e ->
  e = AttributeError "strip" /\ exists v, m !! "email" = Some v /\ as_str v = None.
Proof.
  unfold UserCreate.fields. intros Hf Hr. apply elem_of_app in Hf as [Hf|Hf].
  - now destruct (SchemaFacts.base_fields_raise _ _ _ _ Hf Hr) as (_ & ? & ?).
  - apply list_elem_of_singleton in Hf as ->. exfalso.
    unfold field_raises in Hr. rewrite PydanticFacts.lookup_field_no_alias in Hr by reflexivity.
    destruct (m !! name UserCreate.password) as [v|]; [|discriminate].
    destruct (schema UserCreate.password v) eqn:E; try discriminate.
    now apply SchemaFacts.password_no_raise in E.
Qed.

Lemma stored_last_fields_no_raise `{External} (m : Mapping) (f : FieldInfo) :
  f ∈ [UserInDB.hashed_password; UserInDB.created_at; UserInDB.updated_at] ->
  field_raises UserInDB.model_config m f = None.
Proof.
  rewrite !elem_of_cons, elem_of_nil. unfold field_raises.
  intros [->|[->|[->|[]]]];
    match goal with |- context [lookup_field ?c ?f m] => destruct (lookup_field c f m) as [v|] end;
    try reflexivity;
    match goal with |- context [schema ?f ?x] => destruct (schema f x) eqn:E end;
    try reflexivity; exfalso; revert E;
    cbn [schema UserInDB.hashed_password UserInDB.created_at UserInDB.updated_at].
  - apply SchemaFacts.str_schema_no_raise.
  - apply SchemaFacts.datetime_schema_no_raise.
  - apply SchemaFacts.datetime_schema_no_raise.
Qed.

(** The identifier field raises exactly when an identifier other than
    [None] is given. *)
Lemma id_field_raises (m : Mapping) :
  field_raises UserInDB.model_config m UserInDB.id
  = match UserInDB.given_id m with
    | Some VNone | None => None
    | Some _ => Some (TypeError "PyObjectId.validate" 2 3)
    end.
Proof.
  unfold field_raises. rewrite StoredFacts.id_lookup. fold (UserInDB.given_id m).
  destruct (UserInDB.given_id m) as [v|]; [|reflexivity].
  rewrite SchemaFacts.id_field_schema. destruct v; reflexivity.
Qed.

Lemma base_fields_no_raise `{External} (cfg : Config) (m : Mapping) (f : FieldInfo) :
  UserBase.email_is_str m -> f ∈ UserBase.fields -> field_raises cfg m f = None.
Proof.
  intros Hm Hf. destruct (field_raises cfg m f) as [e|] eqn:E; [|reflexivity].
  exfalso. destruct (SchemaFacts.base_fields_raise _ _ _ _ Hf E) as (_ & _ & v & Hv & Hs).
  unfold UserBase.email_is_str in Hm. rewrite Hv in Hm. contradiction.
Qed.

Lemma full_name_no_raise (cfg : Config) (m : Mapping) (g : FieldInfo) :
  g ∈ [UserBase.full_name] -> field_raises cfg m g = None.
Proof.
  intros Hg. apply list_elem_of_singleton in Hg as ->. unfold field_raises.
  destruct (lookup_field cfg UserBase.full_name m) as [v|]; [|reflexivity].
  destruct (schema UserBase.full_name v) eqn:E; try reflexivity.
  now apply SchemaFacts.str_schema_no_raise in E.
Qed.

(** A document whose email is not a string: the email field is the
    first that raises. *)
Lemma stored_email_escapes `{External} (clock : Clock) (m : Mapping) (v : PyValue) :
  m !! "email" = Some v -> as_str v = None ->
  UserInDB.model_validate clock m = Raised (AttributeError "strip").
Proof.
  intros Hv Hs. unfold UserInDB.model_validate, model_validate.
  change UserInDB.fields
    with ([UserBase.full_name]
          ++ UserBase.email
             :: [UserBase.role; UserBase.is_active; UserBase.avatar_url; UserInDB.id;
                 UserInDB.hashed_password; UserInDB.created_at; UserInDB.updated_at]).
  rewrite (EngineFacts.first_raising_field_escapes _ clock m _ _ _ _
             (full_name_no_raise _ m) (email_field_raises _ m v Hv Hs)).
  reflexivity.
Qed.

(** A document with an identifier and a well-typed email: the
    identifier field is the first that raises. *)
Lemma stored_id_escapes `{External} (clock : Clock) (m : Mapping) (v : PyValue) :
  UserBase.email_is_str m -> UserInDB.given_id m = Some v -> v <> VNone ->
  UserInDB.model_validate clock m = Raised (TypeError "PyObjectId.validate" 2 3).
Proof.
  intros Hm Hv Hn. unfold UserInDB.model_validate, model_validate.
  change UserInDB.fields
    with (UserBase.fields
          ++ UserInDB.id
             :: [UserInDB.hashed_password; UserInDB.created_at; UserInDB.updated_at]).
  assert (Hid : field_raises UserInDB.model_config m UserInDB.id
                = Some (TypeError "PyObjectId.validate" 2 3)).
  { rewrite id_field_raises, Hv. destruct v; congruence. }
  rewrite (EngineFacts.first_raising_field_escapes _ clock m _ _ _ _
             (fun g Hg => base_fields_no_raise _ m g Hm Hg) Hid).
  reflexivity.
Qed.

(** Where an exception of Stored construction comes from. *)
Lemma stored_raise_source `{External} (m : Mapping) (f : FieldInfo) (e : Exception) :
  f ∈ UserInDB.fields -> field_raises UserInDB.model_config m f = Some e ->
  (e = AttributeError "strip" /\ exists v, m !! "email" = Some v /\ as_str v = None)
  \/ (e = TypeError "PyObjectId.validate" 2 3
      /\ exists v, UserInDB.given_id m = Some v /\ v <> VNone).
Proof.
  unfold UserInDB.fields. intros Hf Hr. apply elem_of_app in Hf as [Hf|Hf].
  - left. now destruct (SchemaFacts.base_fields_raise _ _ _ _ Hf Hr) as (_ & ? & ?).
  - apply elem_of_cons in Hf as [->|Hf].
    + right. rewrite id_field_raises in Hr.
      destruct (UserInDB.given_id m) as [v|]; [|discriminate].
      destruct v; try discriminate; injection Hr as <-;
        (split; [reflexivity|]); eexists; (split; [reflexivity|discriminate]).
    + rewrite (stored_last_fields_no_raise m f Hf) in Hr. discriminate.
Qed.

(** When building a Stored shape raises, and what. *)
Lemma stored_raised_cases `{External} (clock : Clock) (m : Mapping) (e : Exception) :
  UserInDB.model_validate clock m = Raised e
  <-> (e = AttributeError "strip" /\ exists v, m !! "email" = Some v /\ as_str v = None)
      \/ (e = TypeError "PyObjectId.validate" 2 3
          /\ UserBase.email_is_str m
          /\ exists v, UserInDB.given_id m = Some v /\ v <> VNone).
Proof.
  split.
  - intros Hr.
    pose proof (PydanticFacts.model_validate_cases UserInDB.model_config clock m
                  UserInDB.fields) as Hc.
    unfold UserInDB.model_validate in Hr. rewrite Hr in Hc. destruct Hc as (f & Hf & Hfr).
    destruct (stored_raise_source m f e Hf Hfr) as [Hl|(-> & v & Hv & Hn)]; [now left|].
    destruct (m !! "email") as [x|] eqn:Ex.
    + destruct (as_str x) as [a|] eqn:Ea.
      * right. split; [reflexivity|]. split; [|eauto].
        unfold UserBase.email_is_str. rewrite Ex. congruence.
      * pose proof (stored_email_escapes clock m x Ex Ea) as He.
        unfold UserInDB.model_validate in He. congruence.
    + right. split; [reflexivity|]. split; [|eauto].
      unfold UserBase.email_is_str. now rewrite Ex.
  - intros [(-> & v & Hv & Hs)|(-> & Hm & v & Hv & Hn)].
    + exact (stored_email_escapes clock m v Hv Hs).
    + exact (stored_id_escapes clock m v Hm Hv Hn).
Qed.

End ClassFacts.

(** X7.  Building a Create shape ends with an exception instead of a
    result exactly when the mapping gives an email that is not a string;
    the exception is then the [AttributeError] of [strip], raised by
    [normalise_email].  No other input makes construction raise. *)
Theorem create_raises_exactly_on_non_string_email `{External}
    (clock : Clock) (m : Mapping) (e : Exception) :
  UserCreate.model_validate clock m = Raised e
  <-> e = AttributeError "strip" /\ exists v, m !! "email" = Some v /\ as_str v = None.
Proof.
  unfold UserCreate.model_validate.
  assert (Hto : forall e', model_validate default_config UserCreate.fields clock m = Raised e' ->
                e' = AttributeError "strip"
                /\ exists v, m !! "email" = Some v /\ as_str v = None).
  { intros e' Hr.
    pose proof (PydanticFacts.model_validate_cases default_config clock m UserCreate.fields) as Hc.
    rewrite Hr in Hc. destruct Hc as (f & Hf & Hfr).
    exact (ClassFacts.create_raise_source m f e' Hf Hfr). }
  split; [apply Hto|].
  intros (-> & v & Hv & Hs).
  destruct (EngineFacts.raising_field_raised default_config clock m UserCreate.fields
              UserBase.email ClassFacts.email_in_create) as [e' He'].
  { rewrite (ClassFacts.email_field_raises _ m v Hv Hs). discriminate. }
  rewrite He'. f_equal. now destruct (Hto e' He').
Qed.

Lemma create_raises_exactly_on_non_string_email_witness :
  @UserCreate.model_validate Reference.external Reference.clock
    Examples.two_bad_fields_null_email
  = Raised (AttributeError "strip").
Proof.
  apply (proj2 (@create_raises_exactly_on_non_string_email Reference.external
                  Reference.clock Examples.two_bad_fields_null_email
                  (AttributeError "strip"))).
  split; [reflexivity|]. exists VNone. split; reflexivity.
Defined.

(** X8.  Building a Stored shape ends with an exception instead of a
    result in exactly two cases.  The Stored shape inherits the email
    validator of [UserBase], so a document whose email is not a string
    ends with the [AttributeError] of [strip].  And a document that gives
    an identifier other than [None] (its email, if any, being a string)
    ends with a [TypeError]: [PyObjectId.validate], yielded by
    [__get_validators__], is called with the value and the validation
    info and takes the value alone. *)
Theorem stored_raises_exactly_on_email_or_identifier `{External}
    (clock : Clock) (m : Mapping) (e : Exception) :
  UserInDB.model_validate clock m = Raised e
  <-> (e = AttributeError "strip" /\ exists v, m !! "email" = Some v /\ as_str v = None)
      \/ (e = TypeError "PyObjectId.validate" 2 3
          /\ UserBase.email_is_str m
          /\ exists v, UserInDB.given_id m = Some v /\ v <> VNone).
Proof. apply ClassFacts.stored_raised_cases. Qed.

Lemma stored_raises_exactly_on_email_or_identifier_witness :
  @UserInDB.model_validate Reference.external Reference.clock
    (<["email" := VBool true]> Examples.stored_jane)
  = Raised (AttributeError "strip").
Proof.
  apply (proj2 (@stored_raises_exactly_on_email_or_identifier Reference.external
                  Reference.clock (<["email" := VBool true]> Examples.stored_jane)
                  (AttributeError "strip"))).
  left. split; [reflexivity|]. exists (VBool true). split; reflexivity.
Defined.

(* ====================================================================== *)
(** ** Further properties of the Update shape *)
(* ====================================================================== *)

Module UpdateFacts.

Lemma update_names_nodup `{External} : NoDup (name <$> UserUpdate.fields).
Proof. ResponseFacts.solve_nodup. Qed.

(** Every field of Update is looked up under its name, is [None] by
    default, takes [None], and never raises. *)
Lemma field_shape `{External} (f : FieldInfo) :
  f ∈ UserUpdate.fields ->
  alias f = None /\ default f = DefaultValue VNone
  /\ schema f VNone = FOk VNone
  /\ forall v e, schema f v <> FRaise e.
Proof.
  unfold UserUpdate.fields. rewrite !elem_of_cons, elem_of_nil.
  intros [->|[->|[->|[->|[->|[]]]]]]; repeat split; intros v e;
    cbn [schema UserUpdate.full_name UserUpdate.email UserUpdate.role
         UserUpdate.is_active UserUpdate.avatar_url];
    apply SchemaFacts.nullable_no_raise; intros e'.
  - apply SchemaFacts.str_schema_no_raise.
  - apply SchemaFacts.email_schema_no_raise.
  - apply SchemaFacts.enum_schema_no_raise.
  - apply SchemaFacts.bool_schema_no_raise.
  - apply SchemaFacts.str_schema_no_raise.
Qed.

Lemma update_fields_no_raise `{External} (m : Mapping) (f : FieldInfo) :
  f ∈ UserUpdate.fields -> field_raises default_config m f = None.
Proof.
  intros Hf. destruct (field_shape f Hf) as (_ & _ & _ & Hno).
  unfold field_raises. destruct (lookup_field default_config f m) as [v|]; [|reflexivity].
  destruct (schema f v) eqn:E; try reflexivity. now apply Hno in E.
Qed.

Lemma name_in_fields `{External} (n : string) :
  In n ["full_name"; "email"; "role"; "is_active"; "avatar_url"] ->
  exists f, f ∈ UserUpdate.fields /\ name f = n.
Proof.
  unfold UserUpdate.fields. cbn [In].
  intros [<-|[<-|[<-|[<-|[<-|[]]]]]];
    [exists UserUpdate.full_name | exists UserUpdate.email | exists UserUpdate.role
     | exists UserUpdate.is_active | exists UserUpdate.avatar_url];
    (split; [rewrite !elem_of_cons; auto 10 | reflexivity]).
Qed.

End UpdateFacts.

(** X9.  Building an Update shape never ends with an exception and never
    misses a field: an error line can only come from a key that the
    mapping gives with a value other than [None], and in a shape that is
    built every field that the mapping leaves out, or gives as [None],
    is [None]. *)
Theorem update_fails_only_on_given_values `{External} (clock : Clock) (m : Mapping) :
  (forall e, UserUpdate.model_validate clock m <> Raised e)
  /\ (forall errs e,
        UserUpdate.model_validate clock m = ValidationError errs -> e ∈ errs ->
        type e <> missing /\ exists v, m !! loc e = Some v /\ v <> VNone)
  /\ (forall inst n,
        UserUpdate.model_validate clock m = Valid inst ->
        In n ["full_name"; "email"; "role"; "is_active"; "avatar_url"] ->
        m !! n = None \/ m !! n = Some VNone ->
        getattr inst n = Some VNone).
Proof.
  unfold UserUpdate.model_validate.
  pose proof (PydanticFacts.model_validate_cases default_config clock m UserUpdate.fields) as Hc.
  split; [|split].
  - intros e He. rewrite He in Hc. destruct Hc as (f & Hf & Hr).
    rewrite (UpdateFacts.update_fields_no_raise m f Hf) in Hr. discriminate.
  - intros errs e He Hin. rewrite He in Hc. destruct Hc as [-> _].
    apply PydanticFacts.errors_of_sound in Hin as (f & Hf & Hn & Hfe).
    destruct (UpdateFacts.field_shape f Hf) as (Ha & Hd & Hnone & _).
    unfold field_error in Hfe. rewrite (PydanticFacts.lookup_field_no_alias _ _ _ Ha) in Hfe.
    rewrite Hn. destruct (m !! name f) as [v|] eqn:Ev.
    + destruct (schema f v) as [|t|] eqn:Es; try discriminate.
      injection Hfe as <-. split.
      * intros ->. clear Hnone. revert Es. revert Hf. unfold UserUpdate.fields.
        rewrite !elem_of_cons, elem_of_nil.
        intros [->|[->|[->|[->|[->|[]]]]]];
          cbv [schema UserUpdate.full_name UserUpdate.email UserUpdate.role
               UserUpdate.is_active UserUpdate.avatar_url nullable str_schema
               email_schema enum_schema bool_schema];
          SchemaFacts.schema_cases.
      * exists v. split; [reflexivity|]. intros ->. congruence.
    + rewrite Hd in Hfe. discriminate.
  - intros inst n He Hn Hm.
    destruct (UpdateFacts.name_in_fields n Hn) as (f & Hf & <-).
    destruct (PydanticFacts.valid_has_attr _ _ _ _ inst f He UpdateFacts.update_names_nodup Hf)
      as (v & Hg & Hfv).
    rewrite Hg. f_equal.
    destruct (UpdateFacts.field_shape f Hf) as (Ha & Hd & Hnone & _).
    unfold field_value in Hfv. rewrite (PydanticFacts.lookup_field_no_alias _ _ _ Ha) in Hfv.
    destruct Hm as [Hm|Hm]; rewrite Hm in Hfv.
    + rewrite Hd in Hfv. exact Hfv.
    + congruence.
Qed.

Lemma update_fails_only_on_given_values_witness :
  @UserUpdate.model_validate Reference.external Reference.clock
    Examples.update_email_capitals
  = Valid [("full_name", VNone); ("email", VStr "Jane.Doe@company.com");
           ("role", VNone); ("is_active", VNone); ("avatar_url", VNone)]
  /\ getattr [("full_name", VNone); ("email", VStr "Jane.Doe@company.com");
              ("role", VNone); ("is_active", VNone); ("avatar_url", VNone)] "role"
     = Some VNone.
Proof.
  assert (Hv : @UserUpdate.model_validate Reference.external Reference.clock
                 Examples.update_email_capitals
               = Valid [("full_name", VNone); ("email", VStr "Jane.Doe@company.com");
                        ("role", VNone); ("is_active", VNone); ("avatar_url", VNone)])
    by reflexivity.
  split; [exact Hv|].
  apply (proj2 (proj2 (@update_fails_only_on_given_values Reference.external
                         Reference.clock Examples.update_email_capitals)) _ "role" Hv).
  - cbn. auto.
  - left. reflexivity.
Defined.

(* ====================================================================== *)
(** ** Keys, aliases and defaults *)
(* ====================================================================== *)

Module KeyFacts.

(** From "the key is none of these names" to "no field is found under
    the key". *)
Ltac not_a_field :=
  match goal with
  | H : ~ In _ _ |- _ =>
      cbn [In] in H;
      repeat (apply Forall_cons; split;
              [split; [intros E; apply H; cbn in E; rewrite <- E; auto 20
                      | first [discriminate
                              | intros E; apply H; injection E as <-; auto 20]]|]);
      apply Forall_nil_2
  end.

Lemma create_key `{External} (k : string) :
  ~ In k ["full_name"; "email"; "role"; "is_active"; "avatar_url"; "password"] ->
  Forall (fun f => name f <> k /\ alias f <> Some k) UserCreate.fields.
Proof. intros Hk. unfold UserCreate.fields, UserBase.fields. cbn [app]. not_a_field. Qed.

Lemma update_key `{External} (k : string) :
  ~ In k ["full_name"; "email"; "role"; "is_active"; "avatar_url"] ->
  Forall (fun f => name f <> k /\ alias f <> Some k) UserUpdate.fields.
Proof. intros Hk. unfold UserUpdate.fields. not_a_field. Qed.

Lemma stored_key `{External} (k : string) :
  ~ In k ["full_name"; "email"; "role"; "is_active"; "avatar_url";
          "_id"; "id"; "hashed_password"; "created_at"; "updated_at"] ->
  Forall (fun f => name f <> k /\ alias f <> Some k) UserInDB.fields.
Proof. intros Hk. unfold UserInDB.fields, UserBase.fields. cbn [app]. not_a_field. Qed.

Lemma response_key `{External} (k : string) :
  ~ In k ["id"; "full_name"; "email"; "role"; "is_active"; "avatar_url";
          "created_at"; "updated_at"] ->
  Forall (fun f => name f <> k /\ alias f <> Some k) UserResponse.fields.
Proof. intros Hk. unfold UserResponse.fields. not_a_field. Qed.

(** The identifier of a document is found under the alias or, without
    it, under the name. *)
Lemma stored_lookups_by_name_or_alias `{External} (m : Mapping) (v : PyValue) :
  m !! "_id" = None -> m !! "id" = None ->
  Forall (fun f => lookup_field UserInDB.model_config f (<["id" := v]> m)
                   = lookup_field UserInDB.model_config f (<["_id" := v]> m))
         UserInDB.fields.
Proof.
  intros H1 H2. unfold UserInDB.fields, UserBase.fields. cbn [app].
  repeat (apply Forall_cons; split; [|]); try apply Forall_nil_2;
    unfold lookup_field; cbn [alias name populate_by_name UserInDB.model_config
      UserBase.full_name UserBase.email UserBase.role UserBase.is_active
      UserBase.avatar_url UserInDB.id UserInDB.hashed_password UserInDB.created_at
      UserInDB.updated_at];
    rewrite ?lookup_insert_eq, ?lookup_insert_ne by discriminate;
    rewrite ?H1, ?H2; reflexivity.
Qed.

End KeyFacts.

(** X10.  No class rejects a key it does not know: a key that is not the
    name (or, for the Stored shape, the alias) of a field changes nothing
    in the outcome of Create, Update, Stored or Public construction.  In
    particular a raw "password" given to Update, Stored or Public, or a
    "hashed_password" given to Create, Update or Public, is dropped
    without an error. *)
Theorem unknown_keys_are_ignored `{External} (clock : Clock) (m : Mapping)
    (k : string) (v : PyValue) :
  (~ In k ["full_name"; "email"; "role"; "is_active"; "avatar_url"; "password"] ->
   UserCreate.model_validate clock (<[k := v]> m) = UserCreate.model_validate clock m)
  /\ (~ In k ["full_name"; "email"; "role"; "is_active"; "avatar_url"] ->
      UserUpdate.model_validate clock (<[k := v]> m) = UserUpdate.model_validate clock m)
  /\ (~ In k ["full_name"; "email"; "role"; "is_active"; "avatar_url";
              "_id"; "id"; "hashed_password"; "created_at"; "updated_at"] ->
      UserInDB.model_validate clock (<[k := v]> m) = UserInDB.model_validate clock m)
  /\ (~ In k ["id"; "full_name"; "email"; "role"; "is_active"; "avatar_url";
              "created_at"; "updated_at"] ->
      UserResponse.model_validate clock (<[k := v]> m) = UserResponse.model_validate clock m).
Proof.
  repeat split; intros Hk; apply PydanticFacts.model_validate_insert.
  - now apply KeyFacts.create_key.
  - now apply KeyFacts.update_key.
  - now apply KeyFacts.stored_key.
  - now apply KeyFacts.response_key.
Qed.

Lemma unknown_keys_are_ignored_witness :
  ~ In "password" ["full_name"; "email"; "role"; "is_active"; "avatar_url";
                   "_id"; "id"; "hashed_password"; "created_at"; "updated_at"]
  /\ @UserInDB.model_validate Reference.external Reference.clock
       (<["password" := VStr "Passw0rdX"]> Examples.stored_jane)
     = @UserInDB.model_validate Reference.external Reference.clock Examples.stored_jane.
Proof.
  assert (H0 : ~ In "password" ["full_name"; "email"; "role"; "is_active"; "avatar_url";
                                "_id"; "id"; "hashed_password"; "created_at"; "updated_at"]).
  { cbn [In]. intros Hin. repeat destruct Hin as [Hin|Hin]; try discriminate Hin. exact Hin. }
  split; [exact H0|].
  exact (proj1 (proj2 (proj2 (@unknown_keys_are_ignored Reference.external Reference.clock
                                Examples.stored_jane "password" (VStr "Passw0rdX")))) H0).
Defined.

(** X11.  The identifier of a document can be given under the field name
    as well as under the alias ([populate_by_name]): when the mapping has
    neither key, adding the identifier as "id" gives the outcome that
    adding it as "_id" gives. *)
Theorem stored_id_by_name_or_alias `{External} (clock : Clock) (m : Mapping) (v : PyValue) :
  m !! "_id" = None -> m !! "id" = None ->
  UserInDB.model_validate clock (<["id" := v]> m)
  = UserInDB.model_validate clock (<["_id" := v]> m).
Proof.
  intros H1 H2. apply EngineFacts.model_validate_same_lookups.
  now apply KeyFacts.stored_lookups_by_name_or_alias.
Qed.

Lemma stored_id_by_name_or_alias_witness :
  Examples.stored_jane !! "_id" = None
  /\ Examples.stored_jane !! "id" = None
  /\ @UserInDB.model_validate Reference.external Reference.clock
       (<["id" := VObjectId Examples.oid]> Examples.stored_jane)
     = @UserInDB.model_validate Reference.external Reference.clock
         (<["_id" := VObjectId Examples.oid]> Examples.stored_jane).
Proof.
  assert (H1 : Examples.stored_jane !! "_id" = None) by reflexivity.
  assert (H2 : Examples.stored_jane !! "id" = None) by reflexivity.
  split; [exact H1|]. split; [exact H2|].
  exact (@stored_id_by_name_or_alias Reference.external Reference.clock
           Examples.stored_jane (VObjectId Examples.oid) H1 H2).
Defined.

(* ====================================================================== *)
(** ** Further properties of the Stored shape *)
(* ====================================================================== *)

Module TimestampFacts.

(** Peel the first field off a run without error lines. *)
Ltac first_field E :=
  let v := fresh "v" in
  let r := fresh "r" in
  let l := fresh "l" in
  let F := fresh "F" in
  apply EngineFacts.collected_cons in E as (v & r & l & F & -> & E).

(** A field that does not read the clock leaves the count of readings. *)
Ltac no_reading F :=
  match type of F with
  | field_result ?c ?k ?m ?n ?f = (_, ?r) =>
      let X := fresh "X" in
      pose proof (EngineFacts.field_result_reads c k m n f) as X;
      rewrite F in X; cbn [snd] in X;
      rewrite X in * by (cbn; discriminate); clear X
  end.

(** The nine values of a Stored shape that is built, with the results
    of the two timestamp fields. *)
Lemma stored_shape `{External} (clock : Clock) (m : Mapping) (inst : Instance) :
  UserInDB.model_validate clock m = Valid inst ->
  exists v1 v2 v3 v4 v5 v6 v7 v8 v9 r8 r9,
    inst = [("full_name", v1); ("email", v2); ("role", v3); ("is_active", v4);
            ("avatar_url", v5); ("id", v6); ("hashed_password", v7);
            ("created_at", v8); ("updated_at", v9)]
    /\ field_result UserInDB.model_config clock m 0 UserInDB.created_at = (FOk v8, r8)
    /\ field_result UserInDB.model_config clock m r8 UserInDB.updated_at = (FOk v9, r9).
Proof.
  unfold UserInDB.model_validate, model_validate.
  destruct (validate_fields UserInDB.model_config clock m 0 UserInDB.fields)
    as [vals errs|] eqn:E; [|discriminate].
  destruct errs; [|discriminate]. intros [= <-].
  unfold UserInDB.fields, UserBase.fields in E. cbn [app] in E.
  first_field E. no_reading F. first_field E. no_reading F0.
  first_field E. no_reading F1. first_field E. no_reading F2.
  first_field E. no_reading F3. first_field E. no_reading F4.
  first_field E. no_reading F5. first_field E. first_field E.
  cbn in E. injection E as <-.
  exists v, v0, v1, v2, v3, v4, v5, v6, v7, r6, r7. repeat split; assumption.
Qed.

Lemma getattr_of_shape (v1 v2 v3 v4 v5 v6 v7 v8 v9 : PyValue) :
  getattr [("full_name", v1); ("email", v2); ("role", v3); ("is_active", v4);
           ("avatar_url", v5); ("id", v6); ("hashed_password", v7);
           ("created_at", v8); ("updated_at", v9)] "created_at" = Some v8
  /\ getattr [("full_name", v1); ("email", v2); ("role", v3); ("is_active", v4);
              ("avatar_url", v5); ("id", v6); ("hashed_password", v7);
              ("created_at", v8); ("updated_at", v9)] "updated_at" = Some v9.
Proof.
  split; unfold getattr, attributes; apply elem_of_list_to_map_1;
    try (cbn; ResponseFacts.solve_nodup); rewrite !elem_of_cons; auto 20.
Qed.

End TimestampFacts.

(** X12.  The two timestamps of a document are two separate readings of
    the clock: when the mapping gives neither, [created_at] is the first
    reading and [updated_at] the second, so the two need not be equal;
    when it gives [created_at] only, [updated_at] is the first reading. *)
Theorem stored_timestamps_are_clock_readings `{External}
    (clock : Clock) (m : Mapping) (inst : Instance) :
  UserInDB.model_validate clock m = Valid inst ->
  (m !! "created_at" = None ->
   getattr inst "created_at" = Some (VDatetime (clock 0)))
  /\ (m !! "created_at" = None -> m !! "updated_at" = None ->
      getattr inst "updated_at" = Some (VDatetime (clock 1)))
  /\ (m !! "created_at" <> None -> m !! "updated_at" = None ->
      getattr inst "updated_at" = Some (VDatetime (clock 0))).
Proof.
  intros Hv.
  destruct (TimestampFacts.stored_shape clock m inst Hv)
    as (v1 & v2 & v3 & v4 & v5 & v6 & v7 & v8 & v9 & r8 & r9 & -> & F8 & F9).
  destruct (TimestampFacts.getattr_of_shape v1 v2 v3 v4 v5 v6 v7 v8 v9) as [-> ->].
  unfold field_result in F8, F9.
  rewrite PydanticFacts.lookup_field_no_alias in F8, F9 by reflexivity.
  change (name UserInDB.created_at) with "created_at" in F8.
  change (name UserInDB.updated_at) with "updated_at" in F9.
  split; [|split].
  - intros Hc. rewrite Hc in F8. cbn in F8. congruence.
  - intros Hc Hu. rewrite Hc in F8. cbn in F8. injection F8 as <- <-.
    rewrite Hu in F9. cbn in F9. congruence.
  - intros Hc Hu. destruct (m !! "created_at") as [x|]; [|congruence].
    injection F8 as _ <-. rewrite Hu in F9. cbn in F9. congruence.
Qed.

Lemma stored_timestamps_are_clock_readings_witness :
  Examples.stored_jane !! "created_at" = None
  /\ Examples.stored_jane !! "updated_at" = None
  /\ getattr [("full_name", VStr "Jane Doe"); ("email", VStr "jane.doe@company.com");
              ("role", VRole INTERN); ("is_active", VBool true); ("avatar_url", VNone);
              ("id", VNone);
              ("hashed_password", VStr "$2b$12$abcdefghijklmnopqrstuv");
              ("created_at", VDatetime 1700000000000000%Z);
              ("updated_at", VDatetime 1700000000000001%Z)] "updated_at"
     = Some (VDatetime (Reference.clock 1)).
Proof.
  assert (H1 : Examples.stored_jane !! "created_at" = None) by reflexivity.
  assert (H2 : Examples.stored_jane !! "updated_at" = None) by reflexivity.
  split; [exact H1|]. split; [exact H2|].
  exact (proj1 (proj2 (@stored_timestamps_are_clock_readings Reference.external
                         Reference.clock Examples.stored_jane _ eq_refl)) H1 H2).
Defined.

(** X13.  A document that gives an identifier other than [None],
    under "_id" or without it under "id", is never built into a Stored
    shape and never refused with a validation error, whatever the
    identifier is, an ObjectId or a string, valid or not: construction
    raises, and with a well-typed email what it raises is the [TypeError]
    of the call of [PyObjectId.validate]. *)
Theorem stored_identifier_is_never_accepted `{External}
    (clock : Clock) (m : Mapping) (v : PyValue) :
  UserInDB.given_id m = Some v -> v <> VNone ->
  (UserBase.email_is_str m ->
   UserInDB.model_validate clock m = Raised (TypeError "PyObjectId.validate" 2 3))
  /\ (exists e, UserInDB.model_validate clock m = Raised e)
  /\ (forall inst, UserInDB.model_validate clock m <> Valid inst)
  /\ (forall errs, UserInDB.model_validate clock m <> ValidationError errs).
Proof.
  intros Hv Hn.
  assert (Hraise : exists e, UserInDB.model_validate clock m = Raised e).
  { destruct (m !! "email") as [x|] eqn:Ex.
    - destruct (as_str x) as [a|] eqn:Ea.
      + eexists. apply (ClassFacts.stored_id_escapes clock m v); auto.
        unfold UserBase.email_is_str. rewrite Ex. congruence.
      + eexists. exact (ClassFacts.stored_email_escapes clock m x Ex Ea).
    - eexists. apply (ClassFacts.stored_id_escapes clock m v); auto.
      unfold UserBase.email_is_str. now rewrite Ex. }
  split; [|split; [exact Hraise|split]].
  - intros Hm. exact (ClassFacts.stored_id_escapes clock m v Hm Hv Hn).
  - intros inst Hi. destruct Hraise as [e He]. congruence.
  - intros errs Hi. destruct Hraise as [e He]. congruence.
Qed.

Lemma stored_identifier_is_never_accepted_witness :
  UserInDB.given_id Examples.stored_jane_with_id = Some (VObjectId Examples.oid)
  /\ VObjectId Examples.oid <> VNone
  /\ UserBase.email_is_str Examples.stored_jane_with_id
  /\ @UserInDB.model_validate Reference.external Reference.clock
       Examples.stored_jane_with_id
     = Raised (TypeError "PyObjectId.validate" 2 3).
Proof.
  assert (H1 : UserInDB.given_id Examples.stored_jane_with_id
               = Some (VObjectId Examples.oid)) by reflexivity.
  assert (H2 : VObjectId Examples.oid <> VNone) by discriminate.
  assert (H3 : UserBase.email_is_str Examples.stored_jane_with_id)
    by (vm_compute; discriminate).
  split; [exact H1|]. split; [exact H2|]. split; [exact H3|].
  exact (proj1 (@stored_identifier_is_never_accepted Reference.external Reference.clock
                  Examples.stored_jane_with_id (VObjectId Examples.oid) H1 H2) H3).
Defined.

(* ====================================================================== *)
(** ** Required fields, defaults and what a built shape guarantees *)
(* ====================================================================== *)

Module ShapeFacts.

Lemma response_field_named `{External} (n : string) :
  In n ["id"; "full_name"; "email"; "role"; "is_active"; "avatar_url";
        "created_at"; "updated_at"] ->
  exists f, f ∈ UserResponse.fields /\ name f = n
            /\ alias f = None /\ default f = Required.
Proof.
  unfold UserResponse.fields. cbn [In].
  intros [<-|[<-|[<-|[<-|[<-|[<-|[<-|[<-|[]]]]]]]]];
    [exists UserResponse.id | exists UserResponse.full_name | exists UserResponse.email
     | exists UserResponse.role | exists UserResponse.is_active
     | exists UserResponse.avatar_url | exists UserResponse.created_at
     | exists UserResponse.updated_at];
    (split; [rewrite !elem_of_cons; auto 20 | repeat split]).
Qed.

Lemma create_required_named `{External} (n : string) :
  In n ["full_name"; "email"; "password"] ->
  exists f, f ∈ UserCreate.fields /\ name f = n
            /\ alias f = None /\ default f = Required.
Proof.
  unfold UserCreate.fields, UserBase.fields. cbn [In app].
  intros [<-|[<-|[<-|[]]]];
    [exists UserBase.full_name | exists UserBase.email | exists UserCreate.password];
    (split; [rewrite !elem_of_cons; auto 20 | repeat split]).
Qed.

Lemma create_names_nodup `{External} : NoDup (name <$> UserCreate.fields).
Proof. ResponseFacts.solve_nodup. Qed.

Lemma base_in_create `{External} (f : FieldInfo) :
  f ∈ UserBase.fields -> f ∈ UserCreate.fields.
Proof. intros Hf. unfold UserCreate.fields. apply elem_of_app. now left. Qed.

Lemma base_in_stored `{External} (f : FieldInfo) :
  f ∈ UserBase.fields -> f ∈ UserInDB.fields.
Proof. intros Hf. unfold UserInDB.fields. apply elem_of_app. now left. Qed.

Lemma full_name_in_base `{External} : UserBase.full_name ∈ UserBase.fields.
Proof. unfold UserBase.fields. rewrite !elem_of_cons. auto. Qed.

Lemma email_in_base `{External} : UserBase.email ∈ UserBase.fields.
Proof. unfold UserBase.fields. rewrite !elem_of_cons. auto. Qed.

Lemma role_in_base `{External} : UserBase.role ∈ UserBase.fields.
Proof. unfold UserBase.fields. rewrite !elem_of_cons. auto. Qed.

Lemma is_active_in_base `{External} : UserBase.is_active ∈ UserBase.fields.
Proof. unfold UserBase.fields. rewrite !elem_of_cons. auto 10. Qed.

Lemma avatar_url_in_base `{External} : UserBase.avatar_url ∈ UserBase.fields.
Proof. unfold UserBase.fields. rewrite !elem_of_cons. auto 10. Qed.

(** What the full name field gives, and from what. *)
Lemma full_name_value (cfg : Config) (clock : Clock) (m : Mapping) (v : PyValue) :
  field_value cfg clock m UserBase.full_name v ->
  exists x n, m !! "full_name" = Some x /\ as_str x = Some n /\ v = VStr n
              /\ 2 <= PyStr.len n /\ PyStr.len n <= 100.
Proof.
  unfold field_value. rewrite PydanticFacts.lookup_field_no_alias by reflexivity.
  change (name UserBase.full_name) with "full_name".
  destruct (m !! "full_name") as [x|]; [|contradiction].
  cbn [schema UserBase.full_name]. unfold str_schema.
  destruct (as_str x) as [n|] eqn:Ex; [|discriminate].
  destruct (Nat.ltb_spec (PyStr.len n) 2); [discriminate|].
  destruct (Nat.ltb_spec 100 (PyStr.len n)); [discriminate|].
  intros [= <-]. exists x, n. split_and!; auto.
Qed.

(** What the email field of [UserBase] gives, and from what. *)
Lemma email_value `{External} (cfg : Config) (clock : Clock) (m : Mapping) (v : PyValue) :
  field_value cfg clock m UserBase.email v ->
  exists x e a, m !! "email" = Some x /\ as_str x = Some e
                /\ validate_email (PyStr.lower (PyStr.strip e)) = Some a /\ v = VStr a.
Proof.
  unfold field_value. rewrite PydanticFacts.lookup_field_no_alias by reflexivity.
  change (name UserBase.email) with "email".
  destruct (m !! "email") as [x|]; [|contradiction].
  cbn [schema UserBase.email]. unfold function_before, UserBase.normalise_email.
  destruct (as_str x) as [e|] eqn:Ex; cbn; [|discriminate].
  destruct (validate_email (PyStr.lower (PyStr.strip e))) as [a|] eqn:E; [|discriminate].
  intros [= <-]. exists x, e, a. auto.
Qed.

(** What the password field gives, and from what. *)
Lemma password_value (cfg : Config) (clock : Clock) (m : Mapping) (v : PyValue) :
  field_value cfg clock m UserCreate.password v ->
  exists x p, m !! "password" = Some x /\ as_str x = Some p /\ v = VStr p
              /\ 8 <= PyStr.len p
              /\ PyStr.any PyStr.isdigit p = true /\ PyStr.any PyStr.isupper p = true.
Proof.
  unfold field_value. rewrite PydanticFacts.lookup_field_no_alias by reflexivity.
  change (name UserCreate.password) with "password".
  destruct (m !! "password") as [x|]; [|contradiction].
  cbn [schema UserCreate.password]. unfold function_after_str, str_schema.
  destruct (as_str x) as [p|] eqn:Ex; [|discriminate].
  destruct (Nat.ltb_spec (PyStr.len p) 8); [discriminate|].
  unfold UserCreate.password_strength.
  destruct (PyStr.any PyStr.isdigit p) eqn:Ed; cbn; [|discriminate].
  destruct (PyStr.any PyStr.isupper p) eqn:Eu; cbn; [|discriminate].
  intros [= <-]. exists x, p. split_and!; auto.
Qed.

End ShapeFacts.

(** X14.  Every one of the eight fields of the Public shape is required,
    [avatar_url] included although it may be [None]: a mapping without
    one of the keys is refused with a [missing] line for that key.
    Building a Public shape never ends with an exception. *)
Theorem public_requires_every_field `{External} (clock : Clock) (m : Mapping) :
  (forall n,
     In n ["id"; "full_name"; "email"; "role"; "is_active"; "avatar_url";
           "created_at"; "updated_at"] ->
     m !! n = None ->
     exists errs, UserResponse.model_validate clock m = ValidationError errs
                  /\ mkError n missing ∈ errs)
  /\ (forall e, UserResponse.model_validate clock m <> Raised e).
Proof.
  split.
  - intros n Hn Hm.
    destruct (ShapeFacts.response_field_named n Hn) as (f & Hf & <- & Ha & Hd).
    apply EngineFacts.required_field_reported; auto.
    + intros g Hg. now apply ResponseFacts.fields_no_raise.
    + now rewrite PydanticFacts.lookup_field_no_alias.
  - intros e He.
    pose proof (PydanticFacts.model_validate_cases UserResponse.model_config clock m
                  UserResponse.fields) as Hc.
    unfold UserResponse.model_validate in He. rewrite He in Hc.
    destruct Hc as (f & Hf & Hr).
    rewrite (ResponseFacts.fields_no_raise _ m f Hf) in Hr. discriminate.
Qed.

Lemma public_requires_every_field_witness :
  In "avatar_url" ["id"; "full_name"; "email"; "role"; "is_active"; "avatar_url";
                   "created_at"; "updated_at"]
  /\ delete "avatar_url" (Examples.public_jane (VStr "000102030405a6b7c8d9eaff"))
       !! "avatar_url" = None
  /\ exists errs,
       @UserResponse.model_validate Reference.external Reference.clock
         (delete "avatar_url" (Examples.public_jane (VStr "000102030405a6b7c8d9eaff")))
       = ValidationError errs
       /\ mkError "avatar_url" missing ∈ errs.
Proof.
  assert (H1 : In "avatar_url" ["id"; "full_name"; "email"; "role"; "is_active";
                                "avatar_url"; "created_at"; "updated_at"])
    by (cbn; auto 10).
  assert (H2 : delete "avatar_url" (Examples.public_jane (VStr "000102030405a6b7c8d9eaff"))
                 !! "avatar_url" = None) by reflexivity.
  split; [exact H1|]. split; [exact H2|].
  exact (proj1 (@public_requires_every_field Reference.external Reference.clock
                  (delete "avatar_url"
                     (Examples.public_jane (VStr "000102030405a6b7c8d9eaff"))))
               "avatar_url" H1 H2).
Defined.

(** X15.  Create requires full_name, email and password and nothing
    else: a mapping without one of the three (its email, if given, being
    a string) is refused with a [missing] line for it, while a mapping
    without role, is_active or avatar_url is completed with the defaults
    intern, [True] and [None]. *)
Theorem create_required_fields_and_defaults `{External} (clock : Clock) (m : Mapping) :
  (forall n,
     UserBase.email_is_str m ->
     In n ["full_name"; "email"; "password"] -> m !! n = None ->
     exists errs, UserCreate.model_validate clock m = ValidationError errs
                  /\ mkError n missing ∈ errs)
  /\ (forall inst,
        UserCreate.model_validate clock m = Valid inst ->
        (m !! "role" = None -> getattr inst "role" = Some (VRole INTERN))
        /\ (m !! "is_active" = None -> getattr inst "is_active" = Some (VBool true))
        /\ (m !! "avatar_url" = None -> getattr inst "avatar_url" = Some VNone)).
Proof.
  split.
  - intros n Hemail Hn Hm.
    destruct (ShapeFacts.create_required_named n Hn) as (f & Hf & <- & Ha & Hd).
    apply EngineFacts.required_field_reported; auto.
    + intros g Hg. now apply SchemaFacts.create_fields_no_raise.
    + now rewrite PydanticFacts.lookup_field_no_alias.
  - intros inst Hv.
    assert (Hdef : forall f d,
              f ∈ UserBase.fields -> alias f = None -> default f = DefaultValue d ->
              m !! name f = None -> getattr inst (name f) = Some d).
    { intros f d Hf Ha Hd Hm.
      destruct (PydanticFacts.valid_has_attr _ _ _ _ inst f Hv ShapeFacts.create_names_nodup
                  (ShapeFacts.base_in_create f Hf)) as (v & Hg & Hfv).
      rewrite Hg. unfold field_value in Hfv.
      rewrite (PydanticFacts.lookup_field_no_alias _ _ _ Ha), Hm, Hd in Hfv. now subst v. }
    repeat split; intros Hm.
    + exact (Hdef UserBase.role _ ShapeFacts.role_in_base eq_refl eq_refl Hm).
    + exact (Hdef UserBase.is_active _ ShapeFacts.is_active_in_base eq_refl eq_refl Hm).
    + exact (Hdef UserBase.avatar_url _ ShapeFacts.avatar_url_in_base eq_refl eq_refl Hm).
Qed.

Lemma create_required_fields_and_defaults_witness :
  Examples.jane !! "role" = None
  /\ getattr [("full_name", VStr "Jane Doe"); ("email", VStr "jane.doe@company.com");
              ("role", VRole INTERN); ("is_active", VBool true);
              ("avatar_url", VNone); ("password", VStr "Passw0rdX")] "role"
     = Some (VRole INTERN).
Proof.
  assert (H1 : Examples.jane !! "role" = None) by reflexivity.
  split; [exact H1|].
  exact (proj1 (proj2 (@create_required_fields_and_defaults Reference.external
                         Reference.clock Examples.jane) _ eq_refl) H1).
Defined.

(** X16.  A Create shape that is built keeps what the validators
    checked: its full name is the given string, of 2 to 100 characters;
    its email is what the format rule returns for the trimmed,
    lower-cased form of the given string; and its password is the given
    string itself, unhashed, of at least eight characters with a digit
    and an uppercase letter. *)
Theorem create_shape_invariants `{External} (clock : Clock) (m : Mapping) (inst : Instance) :
  UserCreate.model_validate clock m = Valid inst ->
  (exists x n, m !! "full_name" = Some x /\ as_str x = Some n
               /\ getattr inst "full_name" = Some (VStr n)
               /\ 2 <= PyStr.len n /\ PyStr.len n <= 100)
  /\ (exists x e a, m !! "email" = Some x /\ as_str x = Some e
                    /\ validate_email (PyStr.lower (PyStr.strip e)) = Some a
                    /\ getattr inst "email" = Some (VStr a))
  /\ (exists x p, m !! "password" = Some x /\ as_str x = Some p
                  /\ getattr inst "password" = Some (VStr p)
                  /\ 8 <= PyStr.len p
                  /\ PyStr.any PyStr.isdigit p = true
                  /\ PyStr.any PyStr.isupper p = true).
Proof.
  intros Hv.
  pose proof (fun f Hf => PydanticFacts.valid_has_attr _ _ _ _ inst f Hv
                            ShapeFacts.create_names_nodup Hf) as Hattr.
  split; [|split].
  - destruct (Hattr UserBase.full_name
                (ShapeFacts.base_in_create _ ShapeFacts.full_name_in_base))
      as (v & Hg & Hfv).
    destruct (ShapeFacts.full_name_value _ _ _ _ Hfv) as (x & n & ? & ? & -> & ? & ?).
    exists x, n. auto.
  - destruct (Hattr UserBase.email
                (ShapeFacts.base_in_create _ ShapeFacts.email_in_base))
      as (v & Hg & Hfv).
    destruct (ShapeFacts.email_value _ _ _ _ Hfv) as (x & e & a & ? & ? & ? & ->).
    exists x, e, a. auto.
  - destruct (Hattr UserCreate.password CreateFacts.password_in_fields) as (v & Hg & Hfv).
    destruct (ShapeFacts.password_value _ _ _ _ Hfv) as (x & p & ? & ? & -> & ? & ? & ?).
    exists x, p. split_and!; auto.
Qed.

Lemma create_shape_invariants_witness :
  @UserCreate.model_validate Reference.external Reference.clock Examples.jane_capitals
  = Valid [("full_name", VStr "Jane Doe"); ("email", VStr "jane.doe@company.com");
           ("role", VRole INTERN); ("is_active", VBool true);
           ("avatar_url", VNone); ("password", VStr "Passw0rdX")]
  /\ exists x p, Examples.jane_capitals !! "password" = Some x /\ as_str x = Some p
                 /\ getattr [("full_name", VStr "Jane Doe");
                             ("email", VStr "jane.doe@company.com");
                             ("role", VRole INTERN); ("is_active", VBool true);
                             ("avatar_url", VNone); ("password", VStr "Passw0rdX")]
                      "password" = Some (VStr p)
                 /\ 8 <= PyStr.len p
                 /\ PyStr.any PyStr.isdigit p = true
                 /\ PyStr.any PyStr.isupper p = true.
Proof.
  assert (Hv : @UserCreate.model_validate Reference.external Reference.clock
                 Examples.jane_capitals
               = Valid [("full_name", VStr "Jane Doe"); ("email", VStr "jane.doe@company.com");
                        ("role", VRole INTERN); ("is_active", VBool true);
                        ("avatar_url", VNone); ("password", VStr "Passw0rdX")])
    by reflexivity.
  split; [exact Hv|].
  exact (proj2 (proj2 (@create_shape_invariants Reference.external Reference.clock
                         Examples.jane_capitals _ Hv))).
Defined.

(** X17.  A Stored shape is validated like a new user: the length bounds
    of the full name and the email normalisation of [UserBase] apply to
    the document too, so the shape that is built holds a name of 2 to 100
    characters and the format rule's result for the trimmed, lower-cased
    email; and the hashed password is required and kept as given. *)
Theorem stored_shape_invariants `{External} (clock : Clock) (m : Mapping) (inst : Instance) :
  UserInDB.model_validate clock m = Valid inst ->
  (exists x n, m !! "full_name" = Some x /\ as_str x = Some n
               /\ getattr inst "full_name" = Some (VStr n)
               /\ 2 <= PyStr.len n /\ PyStr.len n <= 100)
  /\ (exists x e a, m !! "email" = Some x /\ as_str x = Some e
                    /\ validate_email (PyStr.lower (PyStr.strip e)) = Some a
                    /\ getattr inst "email" = Some (VStr a))
  /\ (exists x h, m !! "hashed_password" = Some x /\ as_str x = Some h
                  /\ getattr inst "hashed_password" = Some (VStr h)).
Proof.
  intros Hv.
  pose proof (fun f Hf => PydanticFacts.valid_has_attr _ _ _ _ inst f Hv
                            StoredFacts.stored_names_nodup Hf) as Hattr.
  split; [|split].
  - destruct (Hattr UserBase.full_name
                (ShapeFacts.base_in_stored _ ShapeFacts.full_name_in_base))
      as (v & Hg & Hfv).
    destruct (ShapeFacts.full_name_value _ _ _ _ Hfv) as (x & n & ? & ? & -> & ? & ?).
    exists x, n. auto.
  - destruct (Hattr UserBase.email
                (ShapeFacts.base_in_stored _ ShapeFacts.email_in_base))
      as (v & Hg & Hfv).
    destruct (ShapeFacts.email_value _ _ _ _ Hfv) as (x & e & a & ? & ? & ? & ->).
    exists x, e, a. auto.
  - destruct (Hattr UserInDB.hashed_password StoredFacts.hashed_password_in_fields)
      as (v & Hg & Hfv).
    change (name UserInDB.hashed_password) with "hashed_password" in Hg.
    unfold field_value in Hfv.
    rewrite PydanticFacts.lookup_field_no_alias in Hfv by reflexivity.
    change (name UserInDB.hashed_password) with "hashed_password" in Hfv.
    destruct (m !! "hashed_password") as [x|]; [|contradiction].
    revert Hfv. cbn [schema UserInDB.hashed_password]. unfold str_schema.
    destruct (as_str x) as [h|] eqn:Ex; [|discriminate]. intros [= <-].
    exists x, h. auto.
Qed.

Lemma stored_shape_invariants_witness :
  @UserInDB.model_validate Reference.external Reference.clock
    (<["email" := VStr "  Jane.Doe@Company.COM "]> Examples.stored_jane)
  = Valid [("full_name", VStr "Jane Doe"); ("email", VStr "jane.doe@company.com");
           ("role", VRole INTERN); ("is_active", VBool true); ("avatar_url", VNone);
           ("id", VNone);
           ("hashed_password", VStr "$2b$12$abcdefghijklmnopqrstuv");
           ("created_at", VDatetime 1700000000000000%Z);
           ("updated_at", VDatetime 1700000000000001%Z)]
  /\ exists x e a,
       (<["email" := VStr "  Jane.Doe@Company.COM "]> Examples.stored_jane) !! "email" = Some x
       /\ as_str x = Some e
       /\ Reference.validate_email (PyStr.lower (PyStr.strip e)) = Some a
       /\ getattr [("full_name", VStr "Jane Doe"); ("email", VStr "jane.doe@company.com");
                   ("role", VRole INTERN); ("is_active", VBool true); ("avatar_url", VNone);
                   ("id", VNone);
                   ("hashed_password", VStr "$2b$12$abcdefghijklmnopqrstuv");
                   ("created_at", VDatetime 1700000000000000%Z);
                   ("updated_at", VDatetime 1700000000000001%Z)] "email" = Some (VStr a).
Proof.
  assert (Hv : @UserInDB.model_validate Reference.external Reference.clock
                 (<["email" := VStr "  Jane.Doe@Company.COM "]> Examples.stored_jane)
               = Valid [("full_name", VStr "Jane Doe"); ("email", VStr "jane.doe@company.com");
                        ("role", VRole INTERN); ("is_active", VBool true);
                        ("avatar_url", VNone); ("id", VNone);
                        ("hashed_password", VStr "$2b$12$abcdefghijklmnopqrstuv");
                        ("created_at", VDatetime 1700000000000000%Z);
                        ("updated_at", VDatetime 1700000000000001%Z)])
    by reflexivity.
  split; [exact Hv|].
  exact (proj1 (proj2 (@stored_shape_invariants Reference.external Reference.clock
                         (<["email" := VStr "  Jane.Doe@Company.COM "]> Examples.stored_jane)
                         _ Hv))).
Defined.

(* ====================================================================== *)
(** ** Further properties of the Public shape of a Stored shape *)
(* ====================================================================== *)

Module DerivationFacts.

(** The value the Public shape has for a field, from the attribute of
    the Stored shape it is read from. *)
Lemma public_attr `{External} (clock : Clock) (stored pub : Instance) (f : FieldInfo) :
  UserResponse.from_stored clock stored = Valid pub ->
  f ∈ UserResponse.fields -> alias f = None ->
  exists v, getattr pub (name f) = Some v
            /\ match getattr stored (name f) with
               | Some x => schema f x = FOk v
               | None => False
               end.
Proof.
  intros Hp Hf Ha. unfold UserResponse.from_stored, UserResponse.model_validate in Hp.
  destruct (PydanticFacts.valid_has_attr _ _ _ _ pub f Hp
              ResponseFacts.response_names_nodup Hf) as (v & Hg & Hfv).
  exists v. split; [exact Hg|].
  unfold field_value in Hfv. rewrite (PydanticFacts.lookup_field_no_alias _ _ _ Ha) in Hfv.
  fold (getattr stored (name f)) in Hfv.
  destruct (getattr stored (name f)) as [x|]; [exact Hfv|].
  revert Hf Hfv. unfold UserResponse.fields. rewrite !elem_of_cons, elem_of_nil.
  intros [->|[->|[->|[->|[->|[->|[->|[->|[]]]]]]]]]; auto.
Qed.

(** An attribute that already is a value of its field is kept. *)
Lemma kept `{External} (clock : Clock) (stored pub : Instance) (f : FieldInfo)
    (x : PyValue) :
  UserResponse.from_stored clock stored = Valid pub ->
  f ∈ UserResponse.fields -> alias f = None ->
  getattr stored (name f) = Some x -> schema f x = FOk x ->
  getattr pub (name f) = Some x.
Proof.
  intros Hp Hf Ha Hx Hs.
  destruct (public_attr clock stored pub f Hp Hf Ha) as (v & Hg & Hv).
  rewrite Hx, Hs in Hv. congruence.
Qed.

Lemma in_response `{External} (f : FieldInfo) :
  In f [UserResponse.id; UserResponse.full_name; UserResponse.email; UserResponse.role;
        UserResponse.is_active; UserResponse.avatar_url; UserResponse.created_at;
        UserResponse.updated_at] ->
  f ∈ UserResponse.fields.
Proof. intros Hf. now apply list_elem_of_In. Qed.

(** A Stored shape without identifier is refused as a Public shape. *)
Lemma no_id_no_public `{External} (clock : Clock) (stored : Instance) :
  getattr stored "id" = Some VNone ->
  exists errs, UserResponse.from_stored clock stored = ValidationError errs
               /\ mkError "id" string_type ∈ errs.
Proof.
  intros Hid. unfold UserResponse.from_stored, UserResponse.model_validate.
  assert (Hin : mkError (name UserResponse.id) string_type
                ∈ errors_of UserResponse.model_config (attributes stored) UserResponse.fields).
  { apply PydanticFacts.errors_of_complete; [apply ResponseFacts.response_id_in_fields|].
    unfold field_error. rewrite PydanticFacts.lookup_field_no_alias by reflexivity.
    change (attributes stored !! name UserResponse.id) with (getattr stored "id").
    rewrite Hid. reflexivity. }
  pose proof (PydanticFacts.model_validate_aggregates UserResponse.model_config clock
                (attributes stored) UserResponse.fields
                (fun f Hf => ResponseFacts.fields_no_raise _ _ f Hf)) as Hagg.
  destruct (errors_of _ _ _) as [|e0 errs]; [inversion Hin|].
  exists (e0 :: errs). split; [exact Hagg | exact Hin].
Qed.

End DerivationFacts.

(** X18.  The Public shape built from the attributes of a user object
    keeps every attribute that already has the type of its field: a
    string as [id], [full_name] or [avatar_url], [None] as [avatar_url],
    a role, a boolean, and the two datetimes are taken over unchanged.
    The email is not copied but validated once more, and is what the
    format rule returns for the attribute. *)
Theorem public_copies_typed_attributes `{External}
    (clock : Clock) (stored pub : Instance) :
  UserResponse.from_stored clock stored = Valid pub ->
  (forall n s, In n ["id"; "full_name"; "avatar_url"] ->
               getattr stored n = Some (VStr s) -> getattr pub n = Some (VStr s))
  /\ (getattr stored "avatar_url" = Some VNone -> getattr pub "avatar_url" = Some VNone)
  /\ (forall r, getattr stored "role" = Some (VRole r) ->
                getattr pub "role" = Some (VRole r))
  /\ (forall b, getattr stored "is_active" = Some (VBool b) ->
                getattr pub "is_active" = Some (VBool b))
  /\ (forall n t, In n ["created_at"; "updated_at"] ->
                  getattr stored n = Some (VDatetime t) ->
                  getattr pub n = Some (VDatetime t))
  /\ (exists x e a, getattr stored "email" = Some x /\ as_str x = Some e
                    /\ validate_email e = Some a
                    /\ getattr pub "email" = Some (VStr a)).
Proof.
  intros Hp.
  assert (Hkept : forall f x,
            In f [UserResponse.id; UserResponse.full_name; UserResponse.role;
                  UserResponse.is_active; UserResponse.avatar_url;
                  UserResponse.created_at; UserResponse.updated_at] ->
            getattr stored (name f) = Some x -> schema f x = FOk x ->
            getattr pub (name f) = Some x).
  { intros f x Hf. apply (DerivationFacts.kept clock stored pub f x Hp).
    - apply DerivationFacts.in_response. cbn [In] in Hf |- *. tauto.
    - cbn [In] in Hf. destruct Hf as [<-|[<-|[<-|[<-|[<-|[<-|[<-|[]]]]]]]]; reflexivity. }
  split_and!.
  - intros n s Hn Hx. cbn [In] in Hn. destruct Hn as [<-|[<-|[<-|[]]]].
    + apply (Hkept UserResponse.id _); [cbn [In]; auto 10 | exact Hx | reflexivity].
    + apply (Hkept UserResponse.full_name _); [cbn [In]; auto 10 | exact Hx | reflexivity].
    + apply (Hkept UserResponse.avatar_url _); [cbn [In]; auto 10 | exact Hx | reflexivity].
  - intros Hx. apply (Hkept UserResponse.avatar_url _); [cbn [In]; auto 10 | exact Hx | reflexivity].
  - intros r Hx. apply (Hkept UserResponse.role _); [cbn [In]; auto 10 | exact Hx | reflexivity].
  - intros b Hx. apply (Hkept UserResponse.is_active _); [cbn [In]; auto 10 | exact Hx | reflexivity].
  - intros n t Hn Hx. cbn [In] in Hn. destruct Hn as [<-|[<-|[]]].
    + apply (Hkept UserResponse.created_at _); [cbn [In]; auto 10 | exact Hx | reflexivity].
    + apply (Hkept UserResponse.updated_at _); [cbn [In]; auto 10 | exact Hx | reflexivity].
  - destruct (DerivationFacts.public_attr clock stored pub UserResponse.email Hp)
      as (v & Hg & Hv); [apply DerivationFacts.in_response; cbn [In]; auto|reflexivity|].
    change (name UserResponse.email) with "email" in Hg, Hv.
    destruct (getattr stored "email") as [x|]; [|contradiction].
    revert Hv. cbn [schema UserResponse.email]. unfold email_schema.
    destruct (as_str x) as [e|] eqn:Ee; [|discriminate].
    destruct (validate_email e) as [a|] eqn:Ea; [|discriminate].
    intros [= <-]. exists x, e, a. auto.
Qed.

Lemma public_copies_typed_attributes_witness :
  @UserResponse.from_stored Reference.external Reference.clock
    Examples.stored_jane_attributes
  = Valid [("id", VStr "000102030405a6b7c8d9eaff"); ("full_name", VStr "Jane Doe");
           ("email", VStr "jane.doe@company.com"); ("role", VRole INTERN);
           ("is_active", VBool true); ("avatar_url", VNone);
           ("created_at", VDatetime 1700000000000000%Z);
           ("updated_at", VDatetime 1700000000000001%Z)]
  /\ getattr Examples.stored_jane_attributes "role" = Some (VRole INTERN)
  /\ getattr [("id", VStr "000102030405a6b7c8d9eaff"); ("full_name", VStr "Jane Doe");
              ("email", VStr "jane.doe@company.com"); ("role", VRole INTERN);
              ("is_active", VBool true); ("avatar_url", VNone);
              ("created_at", VDatetime 1700000000000000%Z);
              ("updated_at", VDatetime 1700000000000001%Z)] "role"
     = Some (VRole INTERN).
Proof.
  assert (H1 : @UserResponse.from_stored Reference.external Reference.clock
                 Examples.stored_jane_attributes
               = Valid [("id", VStr "000102030405a6b7c8d9eaff"); ("full_name", VStr "Jane Doe");
                        ("email", VStr "jane.doe@company.com"); ("role", VRole INTERN);
                        ("is_active", VBool true); ("avatar_url", VNone);
                        ("created_at", VDatetime 1700000000000000%Z);
                        ("updated_at", VDatetime 1700000000000001%Z)]) by reflexivity.
  assert (H2 : getattr Examples.stored_jane_attributes "role" = Some (VRole INTERN))
    by reflexivity.
  split; [exact H1|]. split; [exact H2|].
  exact (proj1 (proj2 (proj2 (@public_copies_typed_attributes Reference.external
                                Reference.clock Examples.stored_jane_attributes _ H1)))
               INTERN H2).
Defined.

(** X19.  No Stored shape that the class builds has a Public shape: the
    shape has [id = None], as for a document not yet inserted, and [id]
    is a required string of the Public shape, so the derivation is
    refused with a type error on "id". *)
Theorem built_stored_shape_has_no_public_shape `{External}
    (clock0 clock : Clock) (m : Mapping) (stored : Instance) :
  UserInDB.model_validate clock0 m = Valid stored ->
  getattr stored "id" = Some VNone
  /\ (exists errs, UserResponse.from_stored clock stored = ValidationError errs
                   /\ mkError "id" string_type ∈ errs)
  /\ (forall pub, UserResponse.from_stored clock stored <> Valid pub).
Proof.
  intros Hs.
  destruct (StoredFacts.built_id clock0 m stored Hs) as (v & Hg & Hfv & _).
  apply StoredFacts.id_value_none in Hfv. subst v.
  destruct (DerivationFacts.no_id_no_public clock stored Hg) as (errs & He & Hin).
  split; [exact Hg|]. split; [eauto|]. intros pub Hp. congruence.
Qed.

Lemma built_stored_shape_has_no_public_shape_witness :
  @UserInDB.model_validate Reference.external Reference.clock Examples.stored_jane
  = Valid [("full_name", VStr "Jane Doe"); ("email", VStr "jane.doe@company.com");
           ("role", VRole INTERN); ("is_active", VBool true); ("avatar_url", VNone);
           ("id", VNone);
           ("hashed_password", VStr "$2b$12$abcdefghijklmnopqrstuv");
           ("created_at", VDatetime 1700000000000000%Z);
           ("updated_at", VDatetime 1700000000000001%Z)]
  /\ exists errs,
       @UserResponse.from_stored Reference.external Reference.clock
         [("full_name", VStr "Jane Doe"); ("email", VStr "jane.doe@company.com");
          ("role", VRole INTERN); ("is_active", VBool true); ("avatar_url", VNone);
          ("id", VNone);
          ("hashed_password", VStr "$2b$12$abcdefghijklmnopqrstuv");
          ("created_at", VDatetime 1700000000000000%Z);
          ("updated_at", VDatetime 1700000000000001%Z)]
       = ValidationError errs
       /\ mkError "id" string_type ∈ errs.
Proof.
  assert (H1 : @UserInDB.model_validate Reference.external Reference.clock
                 Examples.stored_jane
               = Valid [("full_name", VStr "Jane Doe"); ("email", VStr "jane.doe@company.com");
                        ("role", VRole INTERN); ("is_active", VBool true);
                        ("avatar_url", VNone); ("id", VNone);
                        ("hashed_password", VStr "$2b$12$abcdefghijklmnopqrstuv");
                        ("created_at", VDatetime 1700000000000000%Z);
                        ("updated_at", VDatetime 1700000000000001%Z)]) by reflexivity.
  split; [exact H1|].
  exact (proj1 (proj2 (@built_stored_shape_has_no_public_shape Reference.external
                         Reference.clock Reference.clock Examples.stored_jane _ H1))).
Defined.
